(** * deezer_app: the request gateway, two route handlers and the template
      filters of [app.py], embedded as Rocq functions.

    - A Python [str] is the list of its Unicode code points; the values that
      flow through the program ([None] and decoded JSON) are the inductive
      [value]; a raised exception is the [Raise] branch of [result].
    - Code that talks to the outside runs in a small monad [M] that threads a
      trace of the gateway calls and of the GET requests.  The upstream server
      and the transport are a function from the trace so far and the URL to
      the outcome of [requests.get]: a response, or an exception (a timeout
      after the 15 seconds, a refused connection, ...).
    - The first definitions follow the values through the code: what is
      requested, what is returned, which context reaches the template.  There
      a [print] is the evaluation of its argument, and a rendered page is the
      template name with its context.
    - Module [Full] has the same functions with every [print] of the source
      (a write to standard output can raise), with CPython's limit of 4300
      digits on the conversion between [int] and text, with a template
      engine that can raise, and with the route boundary of the framework.
      What is said about raising is said on [Full].
    - [request.args] is an association list. *)

From Stdlib Require Import List ZArith NArith Bool Ascii String Lia.
From Stdlib Require Decimal DecimalFacts DecimalN DecimalPos.
Import ListNotations.

#[local] Open Scope N_scope.
#[local] Set Warnings "-register-all".

(* ===================================================================== *)
(** ** Python strings *)
(* ===================================================================== *)

(** A [str] is a sequence of code points. *)
Definition str := list N.

(** An ASCII literal of the source, as a [str]. *)
Definition lit (s : string) : str := map N_of_ascii (list_ascii_of_string s).

Definition str_eqb (a b : str) : bool :=
  if list_eq_dec N.eq_dec a b then true else false.

(** [str.isspace] on one code point: the table behind CPython's
    [_PyUnicode_IsWhitespace]. *)
Definition isspace (c : N) : bool :=
  ((9 <=? c) && (c <=? 13)) || ((28 <=? c) && (c <=? 32))
  || (c =? 133) || (c =? 160) || (c =? 5760)
  || ((8192 <=? c) && (c <=? 8202))
  || (c =? 8232) || (c =? 8233) || (c =? 8239) || (c =? 8287) || (c =? 12288).

(** Scan from the left while [p] holds. *)
Fixpoint lstrip_by (p : N -> bool) (s : str) : str :=
  match s with
  | [] => []
  | c :: s' => if p c then lstrip_by p s' else s
  end.

(** Scan from the right while [p] holds. *)
Definition rstrip_by (p : N -> bool) (s : str) : str :=
  rev (lstrip_by p (rev s)).

(** [s.strip()] *)
Definition strip (s : str) : str := rstrip_by isspace (lstrip_by isspace s).

(** [s.lstrip(chars)]: drops every leading character that occurs in [chars]. *)
Definition lstrip (chars : str) (s : str) : str :=
  lstrip_by (fun c => existsb (N.eqb c) chars) s.

Definition slash : N := 47.

(* ===================================================================== *)
(** ** Python values, exceptions *)
(* ===================================================================== *)

(** A binary64 float: a finite one is [m * 2^e]. *)
Inductive pyfloat :=
| FFinite (m e : Z)
| FInf (negative : bool)
| FNaN.

(** The values that reach this program: [None] and what [json] decodes. *)
Inductive value :=
| PyNone
| PyBool (b : bool)
| PyInt (n : Z)
| PyFloat (f : pyfloat)
| PyStr (s : str)
| PyList (l : list value)
| PyDict (d : list (str * value)).

(** Exception classes (all below [Exception]). *)
Inductive exn :=
| ValueError | TypeError | OverflowError | AttributeError
| UnicodeEncodeError
| JSONDecodeError            (* json.JSONDecodeError *)
| RequestException | HTTPError | ConnectionError | Timeout
| ConnectTimeout | ReadTimeout
| RequestsJSONDecodeError    (* requests.exceptions.JSONDecodeError *)
| OtherException.

(** The class named in an [except] clause. *)
Inductive exn_class :=
| CException | CValueError | CTypeError | CJSONDecodeError
| CRequestException | CHTTPError | CConnectionError | CTimeout.

(** [isinstance(e, c)] along the class hierarchy of Python and requests. *)
Definition isinstance (e : exn) (c : exn_class) : bool :=
  match c with
  | CException => true
  | CValueError =>
      match e with
      | ValueError | UnicodeEncodeError | JSONDecodeError
      | RequestsJSONDecodeError => true
      | _ => false
      end
  | CTypeError => match e with TypeError => true | _ => false end
  | CJSONDecodeError =>
      match e with JSONDecodeError | RequestsJSONDecodeError => true | _ => false end
  | CRequestException =>
      match e with
      | RequestException | HTTPError | ConnectionError | Timeout
      | ConnectTimeout | ReadTimeout | RequestsJSONDecodeError => true
      | _ => false
      end
  | CHTTPError => match e with HTTPError => true | _ => false end
  | CConnectionError =>
      match e with ConnectionError | ConnectTimeout => true | _ => false end
  | CTimeout =>
      match e with Timeout | ConnectTimeout | ReadTimeout => true | _ => false end
  end.

Inductive result (A : Type) :=
| Ok (a : A)
| Raise (e : exn).
Arguments Ok {A} a.
Arguments Raise {A} e.

Definition rbind {A B} (r : result A) (k : A -> result B) : result B :=
  match r with Ok a => k a | Raise e => Raise e end.

(** [try: body  except (c1, c2, ...): handler] for code without effects. *)
Definition try_except {A} (body : result A) (classes : list exn_class)
    (handler : result A) : result A :=
  match body with
  | Ok a => Ok a
  | Raise e => if existsb (isinstance e) classes then handler else Raise e
  end.

(* ===================================================================== *)
(** ** Builtins used by the filters: [int], [str], number formatting *)
(* ===================================================================== *)

Fixpoint str_of_uint (d : Decimal.uint) : str :=
  match d with
  | Decimal.Nil => []
  | Decimal.D0 d => 48 :: str_of_uint d
  | Decimal.D1 d => 49 :: str_of_uint d
  | Decimal.D2 d => 50 :: str_of_uint d
  | Decimal.D3 d => 51 :: str_of_uint d
  | Decimal.D4 d => 52 :: str_of_uint d
  | Decimal.D5 d => 53 :: str_of_uint d
  | Decimal.D6 d => 54 :: str_of_uint d
  | Decimal.D7 d => 55 :: str_of_uint d
  | Decimal.D8 d => 56 :: str_of_uint d
  | Decimal.D9 d => 57 :: str_of_uint d
  end.

(** Decimal digits of a natural number, most significant first. *)
Definition digits (n : N) : str := str_of_uint (N.to_uint n).

Definition minus_sign : str := [45].

Definition sign_of (z : Z) : str := if (z <? 0)%Z then minus_sign else [].

(** The decimal text of an int: what [str(z)] is when it is within the limit
    of 4300 digits ([Full.int_str] has the limit). *)
Definition str_of_int (z : Z) : str := sign_of z ++ digits (Z.abs_N z).

(** Commas between groups of three, on the reversed digits. *)
Fixpoint group3 (r : str) : str :=
  match r with
  | a :: ((b :: (c :: ((_ :: _) as rest))))  => a :: b :: c :: 44 :: group3 rest
  | _ => r
  end.

(** The text of ["{:,}".format(z)], within the digit limit
    ([Full.int_comma] has the limit). *)
Definition format_comma (z : Z) : str :=
  sign_of z ++ rev (group3 (rev (digits (Z.abs_N z)))).

(** [f"{z:02d}"]: zero padding to width 2, the sign counted in the width. *)
Definition format_02d (z : Z) : str :=
  let ds := digits (Z.abs_N z) in
  let missing := (2 - List.length (sign_of z) - List.length ds)%nat in
  sign_of z ++ repeat 48 missing ++ ds.

(** [int(f)] for a float: truncation toward zero. *)
Definition int_of_float (f : pyfloat) : result Z :=
  match f with
  | FFinite m e =>
      Ok (if (0 <=? e)%Z then (m * 2 ^ e)%Z else Z.quot m (2 ^ (- e)))
  | FInf _ => Raise OverflowError
  | FNaN => Raise ValueError
  end.

Section Builtins.

(** Decimal value of a non-ASCII code point of category Nd (the Unicode
    character database); [None] for the others. *)
Variable unicode_decimal : N -> option N.

(** [repr] of finite floats and of containers. *)
Variable py_repr : value -> str.

Definition to_decimal (c : N) : option N :=
  if c <? 128 then
    if (48 <=? c) && (c <=? 57) then Some (c - 48) else None
  else unicode_decimal c.

(** Digits with single underscores between them. *)
Fixpoint parse_digits (acc : Z) (after_digit : bool) (s : str) : option Z :=
  match s with
  | [] => if after_digit then Some acc else None
  | c :: s' =>
      if c =? 95 then
        if after_digit then parse_digits acc false s' else None
      else
        match to_decimal c with
        | Some d => parse_digits (10 * acc + Z.of_N d)%Z true s'
        | None => None
        end
  end.

(** The whitespace [int] skips around a literal: ASCII characters are tested
    with C's [isspace], the others with [str.isspace]. *)
Definition int_space (c : N) : bool :=
  if c <? 127 then ((9 <=? c) && (c <=? 13)) || (c =? 32) else isspace c.

(** The value of a base-10 literal: [int(s)] for a string of at most 4300
    digits ([Full.int_of_text] has the limit). *)
Definition int_of_str (s : str) : result Z :=
  let body := rstrip_by int_space (lstrip_by int_space s) in
  let parsed :=
    match body with
    | 45 :: ds => option_map Z.opp (parse_digits 0%Z false ds)
    | 43 :: ds => parse_digits 0%Z false ds
    | _ => parse_digits 0%Z false body
    end in
  match parsed with
  | Some z => Ok z
  | None => Raise ValueError
  end.

(** [int(v)] *)
Definition py_int (v : value) : result Z :=
  match v with
  | PyNone => Raise TypeError
  | PyBool b => Ok (if b then 1 else 0)%Z
  | PyInt n => Ok n
  | PyFloat f => int_of_float f
  | PyStr s => int_of_str s
  | PyList _ => Raise TypeError
  | PyDict _ => Raise TypeError
  end.

(** [str(v)] *)
Definition py_str (v : value) : str :=
  match v with
  | PyNone => lit "None"
  | PyBool true => lit "True"
  | PyBool false => lit "False"
  | PyInt n => str_of_int n
  | PyFloat (FInf false) => lit "inf"
  | PyFloat (FInf true) => lit "-inf"
  | PyFloat FNaN => lit "nan"
  | PyStr s => s
  | _ => py_repr v
  end.

(* =================================================================== *)
(** ** The template filters *)
(* =================================================================== *)

Definition is_None (v : value) : bool :=
  match v with PyNone => true | _ => false end.

(** Lines 12-20 and 22-32, on numbers and literals within the digit limit;
    [Full.format_number] and [Full.format_duration] have the limit. *)
Definition format_number (value : value) : result str :=
  if is_None value then Ok (lit "0")
  else
    try_except
      (rbind (py_int value) (fun n => Ok (format_comma n)))
      [CValueError; CTypeError]
      (Ok (py_str value)).

Definition format_duration (seconds : value) : result str :=
  if is_None seconds then Ok (lit "0:00")
  else
    try_except
      (rbind (py_int seconds) (fun a =>
       let minutes := (a / 60)%Z in
       rbind (py_int seconds) (fun b =>
       let seconds := (b mod 60)%Z in
       Ok (str_of_int minutes ++ lit ":" ++ format_02d seconds))))
      [CValueError; CTypeError]
      (Ok (lit "0:00")).

End Builtins.

(* ===================================================================== *)
(** ** Effects: the call trace and the upstream server *)
(* ===================================================================== *)

(** What the program does to the outside, in order: each call of the gateway
    with the endpoint it was given, and each GET with its URL. *)
Inductive event :=
| GatewayCall (endpoint : str)
| HttpGet (url : str).

Definition trace := list event.

(** A computation reads the trace so far, returns or raises, and leaves the
    extended trace.  An exception does not undo the events before it. *)
Definition M (A : Type) := trace -> result A * trace.

Definition ret {A} (a : A) : M A := fun t => (Ok a, t).

Definition bind {A B} (m : M A) (k : A -> M B) : M B :=
  fun t => match m t with
           | (Ok a, t') => k a t'
           | (Raise e, t') => (Raise e, t')
           end.

Definition lift {A} (r : result A) : M A := fun t => (r, t).

Definition emit (ev : event) : M unit := fun t => (Ok tt, t ++ [ev]).

Declare Scope gateway_scope.
Delimit Scope gateway_scope with gw.
Notation "x <- m ;; k" := (bind m (fun x => k))
  (at level 61, m at next level, right associativity) : gateway_scope.
Notation "m ;; k" := (bind m (fun _ => k))
  (at level 61, right associativity) : gateway_scope.
#[local] Open Scope gateway_scope.

(** [try: body  except C1: h1  except C2: h2 ...]: the first clause whose
    class matches handles the exception. *)
Definition try_catch {A} (body : M A) (clauses : list (exn_class * (exn -> M A)))
    : M A :=
  fun t => match body t with
           | (Ok a, t') => (Ok a, t')
           | (Raise e, t') =>
               match find (fun cl => isinstance e (fst cl)) clauses with
               | Some cl => snd cl e t'
               | None => (Raise e, t')
               end
           end.

(** The part of a [requests] response the program reads: the status code and
    what [response.json()] does. *)
Record response := { status_code : Z; response_json : result value }.

(** [key in d] and [d.get(key, default)] on a dict in insertion order. *)
Definition contains (key : str) (d : list (str * value)) : bool :=
  existsb (fun kv => str_eqb (fst kv) key) d.

Definition dict_get (key : str) (default : value) (d : list (str * value)) : value :=
  match find (fun kv => str_eqb (fst kv) key) d with
  | Some kv => snd kv
  | None => default
  end.

(** [isinstance(data, dict) and 'error' in data] *)
Definition has_error_key (data : value) : bool :=
  match data with
  | PyDict d => contains (lit "error") d
  | _ => false
  end.

Definition DEEZER_BASE_URL : str := lit "https://api.deezer.com".

(** Lines 38-39: the URL built from an endpoint. *)
Definition request_url (endpoint : str) : str :=
  let endpoint := lstrip [slash] (strip endpoint) in
  DEEZER_BASE_URL ++ lit "/" ++ endpoint.

(* ===================================================================== *)
(** ** Percent-encoding: [requests.utils.quote] *)
(* ===================================================================== *)

(** UTF-8, strict: a surrogate cannot be encoded. *)
Definition utf8_encode_char (c : N) : option (list N) :=
  if c <? 0x80 then Some [c]
  else if c <? 0x800 then Some [0xC0 + c / 0x40; 0x80 + c mod 0x40]
  else if c <? 0x10000 then
    if (0xD800 <=? c) && (c <=? 0xDFFF) then None
    else Some [0xE0 + c / 0x1000; 0x80 + (c / 0x40) mod 0x40; 0x80 + c mod 0x40]
  else if c <? 0x110000 then
    Some [0xF0 + c / 0x40000; 0x80 + (c / 0x1000) mod 0x40;
          0x80 + (c / 0x40) mod 0x40; 0x80 + c mod 0x40]
  else None.

Fixpoint utf8_encode (s : str) : option (list N) :=
  match s with
  | [] => Some []
  | c :: s' =>
      match utf8_encode_char c, utf8_encode s' with
      | Some bs, Some rest => Some (bs ++ rest)
      | _, _ => None
      end
  end.

(** Letters, digits and [_.-~] are never quoted. *)
Definition always_safe (b : N) : bool :=
  ((65 <=? b) && (b <=? 90)) || ((97 <=? b) && (b <=? 122))
  || ((48 <=? b) && (b <=? 57))
  || (b =? 95) || (b =? 46) || (b =? 45) || (b =? 126).

Definition hex_digit (n : N) : N := if n <? 10 then 48 + n else 55 + n.

Definition percent : N := 37.

(** One byte: kept when safe, else [%XX] in upper-case hexadecimal. *)
Definition quoter (safe : str) (b : N) : str :=
  if always_safe b || existsb (N.eqb b) safe then [b]
  else [percent; hex_digit (b / 16); hex_digit (b mod 16)].

(** [quote(string)] with its defaults: [safe='/'], UTF-8, strict errors. *)
Definition quote (string : str) : result str :=
  match string with
  | [] => Ok []
  | _ =>
      match utf8_encode string with
      | Some bs => Ok (flat_map (quoter [slash]) bs)
      | None => Raise UnicodeEncodeError
      end
  end.


(* ===================================================================== *)
(** ** Templates and what a view returns *)
(* ===================================================================== *)

(** [render_template(name, **context)]: the template engine is outside the
    program; a page is the template's name and the context handed to it. *)
Record page := { template : string; context : list (string * value) }.

Definition render_template (name : string) (ctx : list (string * value)) : page :=
  {| template := name; context := ctx |}.

(** A view returns a body, or a body with a status code. *)
Inductive view_return :=
| Body (p : page)
| BodyStatus (p : page) (status : Z).

(** The status of the answer: 200 unless the view gave one. *)
Definition status_of (r : view_return) : Z :=
  match r with
  | Body _ => 200%Z
  | BodyStatus _ s => s
  end.

Definition body_of (r : view_return) : page :=
  match r with
  | Body p => p
  | BodyStatus p _ => p
  end.

(** [request.args.get(key, default)]: the first value given for [key]. *)
Definition args_get (key default : str) (args : list (str * str)) : str :=
  match find (fun kv => str_eqb (fst kv) key) args with
  | Some kv => snd kv
  | None => default
  end.


(** [len(v)] *)
Definition py_len (v : value) : result Z :=
  match v with
  | PyStr s => Ok (Z.of_nat (List.length s))
  | PyList l => Ok (Z.of_nat (List.length l))
  | PyDict d => Ok (Z.of_nat (List.length d))
  | _ => Raise TypeError
  end.

(** Lines 300-306: the two registered error handlers. *)
Definition not_found_error (error : value) : view_return :=
  BodyStatus (render_template "error.html" [("error"%string, error)]) 404.

Definition internal_error (error : value) : view_return :=
  BodyStatus (render_template "error.html" [("error"%string, error)]) 500.

(* ===================================================================== *)
(** ** The gateway and the handlers *)
(* ===================================================================== *)

Section Gateway.

(** The upstream server and the transport: what [requests.get] does for a
    URL, given everything the program did before. *)
Variable upstream : trace -> str -> result response.

(** [str(e)] for an exception. *)
Variable exn_text : exn -> str.

(** [requests.get(url, timeout=15)] *)
Definition requests_get (url : str) : M response :=
  fun t => (upstream t url, t ++ [HttpGet url]).

(** Lines 34-82: the value the gateway returns and the requests it makes.
    The prints are in [Full.make_api_request]. *)
Definition make_api_request (endpoint : str) : M value :=
  emit (GatewayCall endpoint) ;;
  try_catch
    (let endpoint := lstrip [slash] (strip endpoint) in
     let url := DEEZER_BASE_URL ++ lit "/" ++ endpoint in
     response <- requests_get url ;;
     if negb (status_code response =? 200)%Z then ret PyNone
     else
       data <- lift (response_json response) ;;
       if has_error_key data then ret PyNone
       else ret data)
    [ (CTimeout, fun _ => ret PyNone);
      (CConnectionError, fun _ => ret PyNone);
      (CHTTPError, fun _ => ret PyNone);
      (CRequestException, fun _ => ret PyNone);
      (CJSONDecodeError, fun _ => ret PyNone);
      (CException, fun _ => ret PyNone) ].

(** Lines 122-135: the debug block after the search request, as the
    evaluation of [len(results.get('data', []))].  The prints are in
    [Full.search_debug]. *)
Definition search_debug (results : value) : M unit :=
  if negb (is_None results) then
    match results with
    | PyDict d =>
        if contains (lit "data") d then
          lift (py_len (dict_get (lit "data") (PyList []) d)) ;; ret tt
        else ret tt
    | _ => ret tt
    end
  else ret tt.

(** Lines 102-140: the [try] suite of [search]. *)
Definition search_body (args : list (str * str)) : M view_return :=
  let query := args_get (lit "q") (lit "") args in
  let search_type := args_get (lit "type") (lit "track") args in
  results <-
    (match query with
     | [] => ret PyNone
     | _ =>
         encoded_query <- lift (quote query) ;;
         let api_url :=
           lit "search/" ++ search_type ++ lit "?q=" ++ encoded_query
             ++ lit "&limit=10" in
         results <- make_api_request api_url ;;
         search_debug results ;;
         ret results
     end) ;;
  ret (Body (render_template "search.html"
               [("results"%string, results);
                ("query"%string, PyStr query);
                ("search_type"%string, PyStr search_type)])).

(** Lines 99-153. *)
Definition search (args : list (str * str)) : M view_return :=
  try_catch (search_body args)
    [ (CException, fun e =>
         ret (Body (render_template "search.html"
                      [("results"%string, PyNone);
                       ("query"%string, PyStr (args_get (lit "q") (lit "") args));
                       ("search_type"%string,
                        PyStr (args_get (lit "type") (lit "track") args));
                       ("error"%string, PyStr (exn_text e))]))) ].

(** Lines 235-245. *)
Definition artist_detail (artist_id : str) : M view_return :=
  artist_data <- make_api_request (lit "artist/" ++ artist_id) ;;
  top_tracks <- make_api_request (lit "artist/" ++ artist_id ++ lit "/top?limit=10") ;;
  ret (Body (render_template "detail.html"
               [("data"%string, artist_data);
                ("top_tracks"%string, top_tracks);
                ("title"%string, PyStr (lit "Artist Details"));
                ("type"%string, PyStr (lit "artist"))])).

End Gateway.

(* ===================================================================== *)
(** ** The other route handlers *)
(* ===================================================================== *)

(** The truth value of a value under [if]. *)
Definition truthy (v : value) : bool :=
  match v with
  | PyNone => false
  | PyBool b => b
  | PyInt n => negb (n =? 0)%Z
  | PyFloat (FFinite m _) => negb (m =? 0)%Z
  | PyFloat _ => true
  | PyStr s => negb (Nat.eqb (List.length s) 0)
  | PyList l => negb (Nat.eqb (List.length l) 0)
  | PyDict d => negb (Nat.eqb (List.length d) 0)
  end.

Definition is_dict (v : value) : bool :=
  match v with PyDict _ => true | _ => false end.


(** [v.get(key, default)]: of the values here only a dict has the method. *)
Definition method_get (v : value) (key : str) (default : value) : result value :=
  match v with
  | PyDict d => Ok (dict_get key default d)
  | _ => Raise AttributeError
  end.

(** The debug block of the list handlers (lines 194-197, 213-216, 262-265,
    279-282): [if data: print(len(data.get('data', [])))]. *)
Definition count_debug (data : value) : M unit :=
  if truthy data then
    lift (rbind (method_get data (lit "data") (PyList [])) py_len) ;; ret tt
  else ret tt.

(** Lines 174-181: the debug block of [track_detail], as the evaluation of
    [track_data.get('title', 'No title')].  The prints are in
    [Full.track_debug]. *)
Definition track_debug (track_data : value) : M unit :=
  if truthy track_data then
    lift (method_get track_data (lit "title") (PyStr (lit "No title"))) ;; ret tt
  else ret tt.

Section Handlers.

Variable upstream : trace -> str -> result response.
Variable exn_text : exn -> str.

(** Lines 85-96. *)
Definition index : M view_return :=
  chart_data <- make_api_request upstream (lit "chart/0") ;;
  editorial_data <- make_api_request upstream (lit "editorial") ;;
  ret (Body (render_template "index.html"
               [("chart_data"%string, chart_data);
                ("editorial_data"%string, editorial_data)])).

(** Lines 157-164. *)
Definition user_detail (user_id : str) : M view_return :=
  user_data <- make_api_request upstream (lit "user/" ++ user_id) ;;
  ret (Body (render_template "detail.html"
               [("data"%string, user_data);
                ("title"%string, PyStr (lit "User " ++ user_id));
                ("type"%string, PyStr (lit "user"))])).

(** Lines 167-186. *)
Definition track_detail (track_id : str) : M view_return :=
  track_data <- make_api_request upstream (lit "track/" ++ track_id) ;;
  track_debug track_data ;;
  ret (Body (render_template "detail.html"
               [("data"%string, track_data);
                ("title"%string, PyStr (lit "Track Details"));
                ("type"%string, PyStr (lit "track"))])).

(** Lines 188-202. *)
Definition editorial_list : M view_return :=
  editorial_data <- make_api_request upstream (lit "editorial") ;;
  count_debug editorial_data ;;
  ret (Body (render_template "detail.html"
               [("data"%string, editorial_data);
                ("title"%string, PyStr (lit "Editorial Picks"));
                ("type"%string, PyStr (lit "editorial"))])).

(** Lines 204-222. *)
Definition editorial_detail (editorial_id : str) : M view_return :=
  editorial_data <-
    make_api_request upstream (lit "editorial/" ++ editorial_id ++ lit "/selection") ;;
  count_debug editorial_data ;;
  ret (Body (render_template "detail.html"
               [("data"%string, editorial_data);
                ("title"%string, PyStr (lit "Editorial Selection"));
                ("type"%string, PyStr (lit "editorial_detail"));
                ("editorial_id"%string, PyStr editorial_id)])).

(** Lines 225-232. *)
Definition album_detail (album_id : str) : M view_return :=
  album_data <- make_api_request upstream (lit "album/" ++ album_id) ;;
  ret (Body (render_template "detail.html"
               [("data"%string, album_data);
                ("title"%string, PyStr (lit "Album Details"));
                ("type"%string, PyStr (lit "album"))])).

(** Lines 247-254. *)
Definition playlist_detail (playlist_id : str) : M view_return :=
  playlist_data <- make_api_request upstream (lit "playlist/" ++ playlist_id) ;;
  ret (Body (render_template "detail.html"
               [("data"%string, playlist_data);
                ("title"%string, PyStr (lit "Playlist Details"));
                ("type"%string, PyStr (lit "playlist"))])).

(** Lines 256-270. *)
Definition genre_list : M view_return :=
  genre_data <- make_api_request upstream (lit "genre") ;;
  count_debug genre_data ;;
  ret (Body (render_template "detail.html"
               [("data"%string, genre_data);
                ("title"%string, PyStr (lit "Music Genres"));
                ("type"%string, PyStr (lit "genre"))])).

(** Lines 273-287. *)
Definition radio_list : M view_return :=
  radio_data <- make_api_request upstream (lit "radio") ;;
  count_debug radio_data ;;
  ret (Body (render_template "detail.html"
               [("data"%string, radio_data);
                ("title"%string, PyStr (lit "Radio Stations"));
                ("type"%string, PyStr (lit "radio"))])).

(** Lines 290-297. *)
Definition episode_detail (episode_id : str) : M view_return :=
  episode_data <- make_api_request upstream (lit "episode/" ++ episode_id) ;;
  ret (Body (render_template "detail.html"
               [("data"%string, episode_data);
                ("title"%string, PyStr (lit "Episode Details"));
                ("type"%string, PyStr (lit "episode"))])).

(** The routing table of the [@app.route] decorators: a matched request with
    its path or query parameters. *)
Inductive request :=
| GetIndex
| GetSearch (args : list (str * str))
| GetUser (user_id : str)
| GetTrack (track_id : str)
| GetEditorialList
| GetEditorial (editorial_id : str)
| GetAlbum (album_id : str)
| GetArtist (artist_id : str)
| GetPlaylist (playlist_id : str)
| GetGenre
| GetRadio
| GetEpisode (episode_id : str).

(** The view that answers a request. *)
Definition view (r : request) : M view_return :=
  match r with
  | GetIndex => index
  | GetSearch args => search upstream exn_text args
  | GetUser user_id => user_detail user_id
  | GetTrack track_id => track_detail track_id
  | GetEditorialList => editorial_list
  | GetEditorial editorial_id => editorial_detail editorial_id
  | GetAlbum album_id => album_detail album_id
  | GetArtist artist_id => artist_detail upstream artist_id
  | GetPlaylist playlist_id => playlist_detail playlist_id
  | GetGenre => genre_list
  | GetRadio => radio_list
  | GetEpisode episode_id => episode_detail episode_id
  end.

End Handlers.

(** The views without a debug block that can raise, and [search], which
    catches what its own raises. *)
Definition guarded (r : request) : bool :=
  match r with
  | GetTrack _ | GetEditorialList | GetEditorial _ | GetGenre | GetRadio => false
  | _ => true
  end.


(** The events of one gateway call. *)
Definition call_events (endpoint : str) : trace :=
  [GatewayCall endpoint; HttpGet (request_url endpoint)].



(** A decimal digit, and what is not the thousands separator. *)
Definition is_digit (c : N) : Prop := 48 <= c <= 57.

Definition not_comma (c : N) : bool := negb (c =? 44).

(* ===================================================================== *)
(** ** Decoding, to state what the encoders keep *)
(* ===================================================================== *)

(** The value of a hexadecimal digit as [hex_digit] writes it. *)
Definition hex_value (c : N) : N := if c <? 65 then c - 48 else c - 55.

(** The inverse of percent-encoding: [%XX] back to a byte. *)
Fixpoint unquote_bytes (s : str) : list N :=
  match s with
  | [] => []
  | c :: rest =>
      if c =? percent then
        match rest with
        | h :: l :: rest' => (16 * hex_value h + hex_value l) :: unquote_bytes rest'
        | _ => c :: rest
        end
      else c :: unquote_bytes rest
  end.

(** The inverse of [utf8_encode] on what it produces: the first byte tells
    the length of the sequence. *)
Fixpoint utf8_decode (bs : list N) : str :=
  match bs with
  | [] => []
  | b0 :: rest =>
      if b0 <? 0x80 then b0 :: utf8_decode rest
      else if b0 <? 0xE0 then
        match rest with
        | b1 :: rest' =>
            ((b0 - 0xC0) * 0x40 + (b1 - 0x80)) :: utf8_decode rest'
        | _ => []
        end
      else if b0 <? 0xF0 then
        match rest with
        | b1 :: b2 :: rest' =>
            ((b0 - 0xE0) * 0x1000 + (b1 - 0x80) * 0x40 + (b2 - 0x80))
              :: utf8_decode rest'
        | _ => []
        end
      else
        match rest with
        | b1 :: b2 :: b3 :: rest' =>
            ((b0 - 0xF0) * 0x40000 + (b1 - 0x80) * 0x1000
             + (b2 - 0x80) * 0x40 + (b3 - 0x80))
              :: utf8_decode rest'
        | _ => []
        end
  end.

(* ===================================================================== *)
(** ** Reading a gateway call off the upstream outcome *)
(* ===================================================================== *)

(** The outcome of the GET that a gateway call makes when it starts from
    trace [t]. *)
Definition reply (upstream : trace -> str -> result response)
    (endpoint : str) (t : trace) : result response :=
  upstream (t ++ [GatewayCall endpoint]) (request_url endpoint).

(** What the gateway returns, read off the outcome of the GET. *)
Definition classify (outcome : result response) : value :=
  match outcome with
  | Raise _ => PyNone
  | Ok resp =>
      if (status_code resp =? 200)%Z then
        match response_json resp with
        | Ok data => if has_error_key data then PyNone else data
        | Raise _ => PyNone
        end
      else PyNone
  end.

(* ===================================================================== *)
(** ** The claim of the specification on the request URL, in its words *)
(* ===================================================================== *)





(** "negative numeric input": an int or a float below zero. *)
Definition is_negative_number (v : value) : bool :=
  match v with
  | PyInt n => (n <? 0)%Z
  | PyFloat (FFinite m _) => (m <? 0)%Z
  | PyFloat (FInf negative) => negative
  | _ => false
  end.

(* ===================================================================== *)
(** ** Environments to run the model in *)
(* ===================================================================== *)

(** No non-ASCII digit is known. *)
Definition ascii_only : N -> option N := fun _ => None.

Definition plain_repr : value -> str := fun _ => lit "<object>".

Definition plain_text : exn -> str := fun _ => lit "error".

(** A server that cannot be reached. *)
Definition unreachable : trace -> str -> result response :=
  fun _ _ => Raise ConnectionError.

(** A server that gives the same answer to every request. *)
Definition always (status : Z) (body : result value)
    : trace -> str -> result response :=
  fun _ _ => Ok {| status_code := status; response_json := body |}.

(** A server that answers 200 with the JSON text [{"data": 5}]. *)
Definition odd_payload : trace -> str -> result response :=
  always 200 (Ok (PyDict [(lit "data", PyInt 5)])).

(* ===================================================================== *)
(** ** The same code with its prints and with the digit limit *)
(* ===================================================================== *)

(** The definitions above follow the values through the code.  Module [Full]
    models the same functions with what those definitions leave to the
    interpreter: every [print] of the source, which raises when the standard
    output refuses the line; the limit of 4300 digits that CPython sets on
    the conversion between [int] and text; and the rendering of the template,
    which can raise as well. *)
Module Full.

(** [sys.get_int_max_str_digits()] *)
Definition int_max_str_digits : nat := 4300.

(** An int whose decimal text is within the limit. *)
Definition fits (z : Z) : bool :=
  (List.length (digits (Z.abs_N z)) <=? int_max_str_digits)%nat.

(** [str(z)] and [f"{z}"] for an int. *)
Definition int_str (z : Z) : result str :=
  if fits z then Ok (str_of_int z) else Raise ValueError.

(** ["{:,}".format(z)] *)
Definition int_comma (z : Z) : result str :=
  if fits z then Ok (format_comma z) else Raise ValueError.

(** [f"{z:02d}"] *)
Definition int_02d (z : Z) : result str :=
  if fits z then Ok (format_02d z) else Raise ValueError.

(** The number of digit characters of a literal. *)
Definition digit_chars (unicode_decimal : N -> option N) (s : str) : nat :=
  List.length
    (filter (fun c => match to_decimal unicode_decimal c with
                      | Some _ => true
                      | None => false
                      end) s).

(** [int(s)] for a string: a literal of more than 4300 digits is refused. *)
Definition int_of_text (unicode_decimal : N -> option N) (s : str) : result Z :=
  if (digit_chars unicode_decimal s <=? int_max_str_digits)%nat
  then int_of_str unicode_decimal s
  else Raise ValueError.

(** [int(v)] *)
Definition py_int (unicode_decimal : N -> option N) (v : value) : result Z :=
  match v with
  | PyStr s => int_of_text unicode_decimal s
  | _ => py_int unicode_decimal v
  end.

(** Every int in a value, the value itself or an element of a list or of a
    dict at any depth, is within the limit. *)
Fixpoint ints_fit (v : value) : bool :=
  match v with
  | PyInt n => fits n
  | PyList l => forallb ints_fit l
  | PyDict d => forallb (fun kv : str * value => let (_, x) := kv in ints_fit x) d
  | _ => true
  end.

(** [str(v)] and [f"{v}"]: the text of a list or of a dict holds the text of
    its elements, and raises where one of them does. *)
Definition py_str (py_repr : value -> str) (v : value) : result str :=
  if ints_fit v then Ok (py_str py_repr v) else Raise ValueError.

(** Lines 12-20. *)
Definition format_number (unicode_decimal : N -> option N)
    (py_repr : value -> str) (value : value) : result str :=
  if is_None value then Ok (lit "0")
  else
    try_except
      (rbind (py_int unicode_decimal value) int_comma)
      [CValueError; CTypeError]
      (py_str py_repr value).

(** Lines 22-32. *)
Definition format_duration (unicode_decimal : N -> option N)
    (seconds : value) : result str :=
  if is_None seconds then Ok (lit "0:00")
  else
    try_except
      (rbind (py_int unicode_decimal seconds) (fun a =>
       let minutes := (a / 60)%Z in
       rbind (py_int unicode_decimal seconds) (fun b =>
       let seconds := (b mod 60)%Z in
       rbind (int_str minutes) (fun minutes_text =>
       rbind (int_02d seconds) (fun seconds_text =>
       Ok (minutes_text ++ lit ":" ++ seconds_text))))))
      [CValueError; CTypeError]
      (Ok (lit "0:00")).

(** What the interpreter, the libraries and the outside give to a run. *)
Record host := {
  (** [repr] of finite floats and of containers *)
  repr : value -> str;
  (** what [print] raises for a line, [None] when the line is written *)
  stdout : str -> option exn;
  (** [requests.get], as in [make_api_request] above *)
  http : trace -> str -> result response;
  (** [response.text] *)
  body_text : response -> str;
  (** [str(e)], [type(e).__name__] and [traceback.format_exc()] *)
  str_exn : exn -> str;
  name_exn : exn -> str;
  format_exc : exn -> str;
  (** [f"{response_time:.2f}"] after the events so far *)
  elapsed : trace -> str;
  (** the template engine: the text of a page, or what rendering raises *)
  render : page -> result str;
  (** the error objects the framework hands to the error handlers *)
  not_found : value;
  server_error : exn -> value
}.

(** [print(line)] *)
Definition py_print (h : host) (line : str) : M unit :=
  fun t => (match stdout h line with
            | None => Ok tt
            | Some e => Raise e
            end, t).

(** The clause of a [try] statement that handles [e], if any. *)
Definition handle {A} (clauses : list (exn_class * (exn -> M A))) (e : exn) : M A :=
  fun t => match find (fun cl => isinstance e (fst cl)) clauses with
           | Some cl => snd cl e t
           | None => (Raise e, t)
           end.

(** A [try] suite that binds a local on its way: [first] runs up to the
    binding, [rest] runs with the local; the clauses see the local only when
    it was bound (['response' in locals()]). *)
Definition try_with_local {L A} (first : M L) (rest : L -> M A)
    (clauses : option L -> list (exn_class * (exn -> M A))) : M A :=
  fun t => match first t with
           | (Raise e, t') => handle (clauses None) e t'
           | (Ok l, t') =>
               match rest l t' with
               | (Ok a, t'') => (Ok a, t'')
               | (Raise e, t'') => handle (clauses (Some l)) e t''
               end
           end.

(** [data[key]] where the key is known to be there. *)
Definition item (key : str) (data : value) : value :=
  match data with
  | PyDict d => dict_get key PyNone d
  | _ => PyNone
  end.

(** [list(d.keys())] *)
Definition keys (d : list (str * value)) : value :=
  PyList (map (fun kv => PyStr (fst kv)) d).

(** [f"{type(v)}"] *)
Definition type_text (v : value) : str :=
  lit "<class '"
  ++ lit (match v with
          | PyNone => "NoneType"
          | PyBool _ => "bool"
          | PyInt _ => "int"
          | PyFloat _ => "float"
          | PyStr _ => "str"
          | PyList _ => "list"
          | PyDict _ => "dict"
          end)
  ++ lit "'>".

(** Lines 64-82: the [except] clauses of [make_api_request], with their
    prints.  [response] is the local of that name, if it was bound. *)
Definition gateway_clauses (h : host) (response : option response)
    : list (exn_class * (exn -> M value)) :=
  [ (CTimeout, fun _ =>
       py_print h ([0x23F0] ++ lit " Timeout error: Request took too long") ;;
       ret PyNone);
    (CConnectionError, fun _ =>
       py_print h ([0x1F50C]
                   ++ lit " Connection error: Cannot connect to Deezer API") ;;
       ret PyNone);
    (CHTTPError, fun e =>
       py_print h ([0x1F6AB] ++ lit " HTTP error: " ++ str_exn h e) ;;
       ret PyNone);
    (CRequestException, fun e =>
       py_print h ([0x274C] ++ lit " Request error: " ++ str_exn h e) ;;
       ret PyNone);
    (CJSONDecodeError, fun e =>
       py_print h ([0x1F4C4] ++ lit " JSON decode error: " ++ str_exn h e) ;;
       py_print h ([0x1F4C4] ++ lit " Response text: "
                   ++ match response with
                      | Some response => firstn 200 (body_text h response)
                      | None => lit "No response"
                      end) ;;
       ret PyNone);
    (CException, fun e =>
       py_print h ([0x1F525] ++ lit " Unexpected error in make_api_request: "
                   ++ str_exn h e) ;;
       ret PyNone) ].

(** Lines 34-82, with the prints.  [response] is bound when [requests.get]
    has returned. *)
Definition make_api_request (h : host) (endpoint : str) : M value :=
  emit (GatewayCall endpoint) ;;
  try_with_local
    (let endpoint := lstrip [slash] (strip endpoint) in
     let url := DEEZER_BASE_URL ++ lit "/" ++ endpoint in
     py_print h ([0x1F310] ++ lit " Making request to: " ++ url) ;;
     requests_get (http h) url)
    (fun response =>
       status <- lift (int_str (status_code response)) ;;
       py_print h ([0x1F4E1] ++ lit " Response status: " ++ status) ;;
       if negb (status_code response =? 200)%Z then
         status <- lift (int_str (status_code response)) ;;
         py_print h ([0x1F6AB] ++ lit " HTTP Error " ++ status) ;;
         ret PyNone
       else
         data <- lift (response_json response) ;;
         if has_error_key data then
           error <- lift (py_str (repr h) (item (lit "error") data)) ;;
           py_print h ([0x274C] ++ lit " Deezer API Error: " ++ error) ;;
           ret PyNone
         else
           py_print h ([0x2705] ++ lit " API Request successful") ;;
           ret data)
    (gateway_clauses h).

(** Lines 122-135, with the prints. *)
Definition search_debug (h : host) (results : value) : M unit :=
  if negb (is_None results) then
    (fun t => py_print h ([0x2705] ++ lit " Search completed in " ++ elapsed h t
                          ++ lit "s") t) ;;
    match results with
    | PyDict d =>
        py_print h ([0x1F4CA] ++ lit " Results keys: " ++ repr h (keys d)) ;;
        if contains (lit "data") d then
          count <- lift (py_len (dict_get (lit "data") (PyList []) d)) ;;
          py_print h ([0x1F4CA] ++ lit " Results count: " ++ str_of_int count
                      ++ lit " items")
        else py_print h ([0x274C] ++ lit " No 'data' key in results")
    | _ => py_print h ([0x2753] ++ lit " Unexpected results type: "
                       ++ type_text results)
    end
  else py_print h ([0x274C] ++ lit " No search results received from API").

(** Lines 102-140: the [try] suite of [search]. *)
Definition search_body (h : host) (args : list (str * str)) : M str :=
  let query := args_get (lit "q") (lit "") args in
  let search_type := args_get (lit "type") (lit "track") args in
  py_print h ([0x1F50D] ++ lit " Search endpoint called - Query: '" ++ query
              ++ lit "', Type: '" ++ search_type ++ lit "'") ;;
  results <-
    (match query with
     | [] => ret PyNone
     | _ =>
         py_print h ([0x1F50D] ++ lit " Searching for: '" ++ query
                     ++ lit "' (type: " ++ search_type ++ lit ")") ;;
         encoded_query <- lift (quote query) ;;
         let api_url :=
           lit "search/" ++ search_type ++ lit "?q=" ++ encoded_query
             ++ lit "&limit=10" in
         py_print h ([0x1F4E1] ++ lit " API URL: " ++ DEEZER_BASE_URL ++ lit "/"
                     ++ api_url) ;;
         results <- make_api_request h api_url ;;
         search_debug h results ;;
         ret results
     end) ;;
  lift (render h (render_template "search.html"
                    [("results"%string, results);
                     ("query"%string, PyStr query);
                     ("search_type"%string, PyStr search_type)])).

(** Lines 99-153. *)
Definition search (h : host) (args : list (str * str)) : M str :=
  try_catch (search_body h args)
    [ (CException, fun e =>
         py_print h ([0x1F525] ++ lit " ERROR in search function: " ++ str_exn h e) ;;
         py_print h ([0x1F525] ++ lit " Error type: " ++ name_exn h e) ;;
         py_print h ([0x1F525] ++ lit " Traceback: " ++ format_exc h e) ;;
         lift (render h (render_template "search.html"
                           [("results"%string, PyNone);
                            ("query"%string,
                             PyStr (args_get (lit "q") (lit "") args));
                            ("search_type"%string,
                             PyStr (args_get (lit "type") (lit "track") args));
                            ("error"%string, PyStr (str_exn h e))]))) ].

(** Lines 85-96. *)
Definition index (h : host) : M str :=
  chart_data <- make_api_request h (lit "chart/0") ;;
  editorial_data <- make_api_request h (lit "editorial") ;;
  lift (render h (render_template "index.html"
                    [("chart_data"%string, chart_data);
                     ("editorial_data"%string, editorial_data)])).

(** Lines 157-164. *)
Definition user_detail (h : host) (user_id : str) : M str :=
  user_data <- make_api_request h (lit "user/" ++ user_id) ;;
  lift (render h (render_template "detail.html"
                    [("data"%string, user_data);
                     ("title"%string, PyStr (lit "User " ++ user_id));
                     ("type"%string, PyStr (lit "user"))])).

(** Lines 174-181: the debug block of [track_detail], with the prints. *)
Definition track_debug (h : host) (track_data : value) : M unit :=
  if truthy track_data then
    title <- lift (method_get track_data (lit "title") (PyStr (lit "No title"))) ;;
    title_text <- lift (py_str (repr h) title) ;;
    py_print h (lit "Track data received: " ++ title_text) ;;
    match track_data with
    | PyDict d =>
        py_print h (lit "Track keys: dict_keys(" ++ repr h (keys d) ++ lit ")") ;;
        if contains (lit "error") d then
          error <- lift (py_str (repr h) (item (lit "error") track_data)) ;;
          py_print h (lit "API Error: " ++ error)
        else ret tt
    | _ => ret tt
    end
  else py_print h (lit "No track data received from API").

(** Lines 167-186. *)
Definition track_detail (h : host) (track_id : str) : M str :=
  py_print h (lit "Fetching track details for ID: " ++ track_id) ;;
  track_data <- make_api_request h (lit "track/" ++ track_id) ;;
  track_debug h track_data ;;
  lift (render h (render_template "detail.html"
                    [("data"%string, track_data);
                     ("title"%string, PyStr (lit "Track Details"));
                     ("type"%string, PyStr (lit "track"))])).

(** The debug block of the list handlers, with the prints: the line that
    counts the entries (a length has at most 19 digits) or says there are
    none. *)
Definition count_debug (h : host) (received : string) (unit_name : string)
    (nothing : string) (data : value) : M unit :=
  if truthy data then
    count <- lift (rbind (method_get data (lit "data") (PyList [])) py_len) ;;
    py_print h (lit received ++ str_of_int count ++ lit unit_name)
  else py_print h (lit nothing).

(** Lines 188-202. *)
Definition editorial_list (h : host) : M str :=
  editorial_data <- make_api_request h (lit "editorial") ;;
  count_debug h "Editorial data received: " " editorials"
    "No editorial data received" editorial_data ;;
  lift (render h (render_template "detail.html"
                    [("data"%string, editorial_data);
                     ("title"%string, PyStr (lit "Editorial Picks"));
                     ("type"%string, PyStr (lit "editorial"))])).

(** Lines 204-222. *)
Definition editorial_detail (h : host) (editorial_id : str) : M str :=
  py_print h (lit "Fetching editorial details for ID: " ++ editorial_id) ;;
  editorial_data <-
    make_api_request h (lit "editorial/" ++ editorial_id ++ lit "/selection") ;;
  count_debug h "Editorial selection received: " " items"
    "No editorial selection received" editorial_data ;;
  lift (render h (render_template "detail.html"
                    [("data"%string, editorial_data);
                     ("title"%string, PyStr (lit "Editorial Selection"));
                     ("type"%string, PyStr (lit "editorial_detail"));
                     ("editorial_id"%string, PyStr editorial_id)])).

(** Lines 225-232. *)
Definition album_detail (h : host) (album_id : str) : M str :=
  album_data <- make_api_request h (lit "album/" ++ album_id) ;;
  lift (render h (render_template "detail.html"
                    [("data"%string, album_data);
                     ("title"%string, PyStr (lit "Album Details"));
                     ("type"%string, PyStr (lit "album"))])).

(** Lines 235-245. *)
Definition artist_detail (h : host) (artist_id : str) : M str :=
  artist_data <- make_api_request h (lit "artist/" ++ artist_id) ;;
  top_tracks <-
    make_api_request h (lit "artist/" ++ artist_id ++ lit "/top?limit=10") ;;
  lift (render h (render_template "detail.html"
                    [("data"%string, artist_data);
                     ("top_tracks"%string, top_tracks);
                     ("title"%string, PyStr (lit "Artist Details"));
                     ("type"%string, PyStr (lit "artist"))])).

(** Lines 247-254. *)
Definition playlist_detail (h : host) (playlist_id : str) : M str :=
  playlist_data <- make_api_request h (lit "playlist/" ++ playlist_id) ;;
  lift (render h (render_template "detail.html"
                    [("data"%string, playlist_data);
                     ("title"%string, PyStr (lit "Playlist Details"));
                     ("type"%string, PyStr (lit "playlist"))])).

(** Lines 256-270. *)
Definition genre_list (h : host) : M str :=
  genre_data <- make_api_request h (lit "genre") ;;
  count_debug h "Genre data received: " " genres"
    "No genre data received" genre_data ;;
  lift (render h (render_template "detail.html"
                    [("data"%string, genre_data);
                     ("title"%string, PyStr (lit "Music Genres"));
                     ("type"%string, PyStr (lit "genre"))])).

(** Lines 273-287. *)
Definition radio_list (h : host) : M str :=
  radio_data <- make_api_request h (lit "radio") ;;
  count_debug h "Radio data received: " " stations"
    "No radio data received" radio_data ;;
  lift (render h (render_template "detail.html"
                    [("data"%string, radio_data);
                     ("title"%string, PyStr (lit "Radio Stations"));
                     ("type"%string, PyStr (lit "radio"))])).

(** Lines 290-297. *)
Definition episode_detail (h : host) (episode_id : str) : M str :=
  episode_data <- make_api_request h (lit "episode/" ++ episode_id) ;;
  lift (render h (render_template "detail.html"
                    [("data"%string, episode_data);
                     ("title"%string, PyStr (lit "Episode Details"));
                     ("type"%string, PyStr (lit "episode"))])).

(** Lines 300-306: the two registered error handlers, with the rendering. *)
Definition not_found_error (h : host) (error : value) : M (str * Z) :=
  body <- lift (render h (render_template "error.html" [("error"%string, error)])) ;;
  ret (body, 404%Z).

Definition internal_error (h : host) (error : value) : M (str * Z) :=
  body <- lift (render h (render_template "error.html" [("error"%string, error)])) ;;
  ret (body, 500%Z).

(** The view that answers a request: the [@app.route] table. *)
Definition view (h : host) (r : request) : M str :=
  match r with
  | GetIndex => index h
  | GetSearch args => search h args
  | GetUser user_id => user_detail h user_id
  | GetTrack track_id => track_detail h track_id
  | GetEditorialList => editorial_list h
  | GetEditorial editorial_id => editorial_detail h editorial_id
  | GetAlbum album_id => album_detail h album_id
  | GetArtist artist_id => artist_detail h artist_id
  | GetPlaylist playlist_id => playlist_detail h playlist_id
  | GetGenre => genre_list h
  | GetRadio => radio_list h
  | GetEpisode episode_id => episode_detail h episode_id
  end.

(** Modelled from the spec: the route boundary, which is the framework's
    dispatch and not under [src/].  "Unhandled exceptions inside a handler
    must be caught and rendered as an error page with HTTP 404 or 500
    depending on cause; a generic exception handler maps any other in-handler
    failure to a 500 page"; what a view returns is answered with status 200.
    A request that matches no route ([None]) goes to the 404 handler, an
    exception that leaves a view to the 500 handler. *)
Definition dispatch (h : host) (r : option request) : M (str * Z) :=
  match r with
  | None => not_found_error h (not_found h)
  | Some r =>
      fun t => match view h r t with
               | (Ok body, t') => (Ok (body, 200%Z), t')
               | (Raise e, t') => internal_error h (server_error h e) t'
               end
  end.

(** The standard output takes every line. *)
Definition quiet (h : host) : Prop := forall line, stdout h line = None.

End Full.

(** A strict ASCII standard output: a line with another character is
    refused with [UnicodeEncodeError]. *)
Definition ascii_stdout (line : str) : option exn :=
  if forallb (fun c => c <? 128) line then None else Some UnicodeEncodeError.

(** A strict UTF-8 standard output: only a surrogate cannot be written. *)
Definition utf8_stdout (line : str) : option exn :=
  match utf8_encode line with
  | Some _ => None
  | None => Some UnicodeEncodeError
  end.

(** A host for the examples: the page is "rendered" as the name of its
    template. *)
Definition sample_host (upstream : trace -> str -> result response)
    (stdout : str -> option exn) : Full.host :=
  {| Full.repr := plain_repr;
     Full.stdout := stdout;
     Full.http := upstream;
     Full.body_text := fun _ => lit "";
     Full.str_exn := plain_text;
     Full.name_exn := fun _ => lit "Exception";
     Full.format_exc := fun _ => lit "Traceback (most recent call last):";
     Full.elapsed := fun _ => lit "0.00";
     Full.render := fun p => Ok (lit (template p));
     Full.not_found := PyStr (lit "404 Not Found");
     Full.server_error := fun _ => PyStr (lit "500 Internal Server Error") |}.

(** Every line is written. *)
Definition no_refusal : str -> option exn := fun _ => None.

(* ===================================================================== *)
(** * Properties *)
(* ===================================================================== *)

Lemma str_eqb_eq a b : str_eqb a b = true <-> a = b.
Proof. unfold str_eqb. destruct (list_eq_dec N.eq_dec a b); split; congruence. Qed.

Example format_duration_125 ud :
  format_duration ud (PyInt 125) = Ok (lit "2:05").
Proof. reflexivity. Qed.

Example format_number_big ud pr :
  format_number ud pr (PyInt (-1234567)) = Ok (lit "-1,234,567").
Proof. reflexivity. Qed.

Example format_number_text ud pr :
  format_number ud pr (PyStr (lit "n/a")) = Ok (lit "n/a").
Proof. reflexivity. Qed.

Example format_number_digits_text ud pr :
  format_number ud pr (PyStr (lit " 1_000 ")) = Ok (lit "1,000").
Proof. reflexivity. Qed.

Example quote_space_amp : quote (lit "a b&c") = Ok (lit "a%20b%26c").
Proof. reflexivity. Qed.

Example quote_e_acute : quote [233] = Ok (lit "%C3%A9").
Proof. reflexivity. Qed.


Example int_of_str_cases :
  map (int_of_str ascii_only)
      [lit "+12"; lit "-0"; lit "012"; lit "1__0"; lit "_1"; lit "1_";
       lit "- 1"; lit ""; lit "+"]
  = [Ok 12%Z; Ok 0%Z; Ok 12%Z; Raise ValueError; Raise ValueError;
     Raise ValueError; Raise ValueError; Raise ValueError; Raise ValueError].
Proof. reflexivity. Qed.

Example format_02d_cases :
  map format_02d [5; 0; 59; -5; -15]%Z
  = [lit "05"; lit "00"; lit "59"; lit "-5"; lit "-15"].
Proof. reflexivity. Qed.

Example format_comma_cases :
  map format_comma [0; 123; 1000; -100; 1234567]%Z
  = [lit "0"; lit "123"; lit "1,000"; lit "-100"; lit "1,234,567"].
Proof. reflexivity. Qed.

Example format_number_nan :
  format_number ascii_only plain_repr (PyFloat FNaN) = Ok (lit "nan").
Proof. reflexivity. Qed.

Example format_duration_text :
  format_duration ascii_only (PyStr (lit "3:20")) = Ok (lit "0:00").
Proof. reflexivity. Qed.

(** Whitespace behind a stripped separator stays: it is trimmed before the
    separators are removed, not after. *)
Example request_url_separator_then_space :
  request_url (lit "/ a") = lit "https://api.deezer.com/ a"
  /\ request_url (lit " a") = lit "https://api.deezer.com/a".
Proof. split; reflexivity. Qed.

(** A JSON [null] body is returned as it is, and is [None]. *)
Example gateway_null_body :
  make_api_request (always 200 (Ok PyNone)) (lit "genre") []
  = (Ok PyNone,
     [GatewayCall (lit "genre"); HttpGet (lit "https://api.deezer.com/genre")]).
Proof. reflexivity. Qed.

Example gateway_payload :
  fst (make_api_request odd_payload (lit "genre") [])
  = Ok (PyDict [(lit "data", PyInt 5)]).
Proof. reflexivity. Qed.

(** A query that cannot be encoded: [quote] raises, no request is made, and
    [search] answers with its fallback page. *)
Example search_lone_surrogate :
  search unreachable plain_text [(lit "q", [0xDC80])] []
  = (Ok (Body (render_template "search.html"
                 [("results"%string, PyNone);
                  ("query"%string, PyStr [0xDC80]);
                  ("search_type"%string, PyStr (lit "track"));
                  ("error"%string, PyStr (plain_text UnicodeEncodeError))])),
     []).
Proof. reflexivity. Qed.

(** Both artist requests fail: there are still two calls, and both keys. *)
Example artist_detail_unreachable :
  artist_detail unreachable (lit "27") []
  = (Ok (Body (render_template "detail.html"
                 [("data"%string, PyNone);
                  ("top_tracks"%string, PyNone);
                  ("title"%string, PyStr (lit "Artist Details"));
                  ("type"%string, PyStr (lit "artist"))])),
     [GatewayCall (lit "artist/27");
      HttpGet (lit "https://api.deezer.com/artist/27");
      GatewayCall (lit "artist/27/top?limit=10");
      HttpGet (lit "https://api.deezer.com/artist/27/top?limit=10")]).
Proof. reflexivity. Qed.

(* --------------------------------------------------------------------- *)
(** ** Stripping *)
(* --------------------------------------------------------------------- *)

Section Stripping.

Variable p : N -> bool.










End Stripping.




Lemma slash_in_set c : existsb (N.eqb c) [slash] = true <-> c = slash.
Proof.
  simpl. rewrite orb_false_r. apply N.eqb_eq.
Qed.


(* --------------------------------------------------------------------- *)
(** ** One run of the gateway *)
(* --------------------------------------------------------------------- *)

Section GatewayFacts.

Variable upstream : trace -> str -> result response.
Variable exn_text : exn -> str.

(** The clause list ends in [except Exception], so every exception of the
    [try] suite is handled, and every clause returns [None]. *)
Lemma make_api_request_run endpoint t :
  make_api_request upstream endpoint t =
    (Ok (classify (reply upstream endpoint t)),
     t ++ [GatewayCall endpoint; HttpGet (request_url endpoint)]).
Proof.
  unfold make_api_request, reply, classify, bind, emit, try_catch,
    requests_get, lift, ret, request_url.
  cbv zeta.
  replace (t ++ [GatewayCall endpoint; HttpGet (DEEZER_BASE_URL ++ lit "/" ++ lstrip [slash] (strip endpoint))])
    with ((t ++ [GatewayCall endpoint]) ++ [HttpGet (DEEZER_BASE_URL ++ lit "/" ++ lstrip [slash] (strip endpoint))])
    by (now rewrite <- app_assoc).
  destruct (upstream _ _) as [resp|e].
  - destruct (status_code resp =? 200)%Z; simpl; [|reflexivity].
    destruct (response_json resp) as [data|e]; simpl.
    + destruct (has_error_key data); reflexivity.
    + destruct e; reflexivity.
  - destruct e; reflexivity.
Qed.

Lemma classify_no_error outcome : has_error_key (classify outcome) = false.
Proof.
  unfold classify. destruct outcome as [resp|e]; [|reflexivity].
  destruct (status_code resp =? 200)%Z; [|reflexivity].
  destruct (response_json resp) as [data|e]; [|reflexivity].
  destruct (has_error_key data) eqn:H; [reflexivity | exact H].
Qed.






(* --------------------------------------------------------------------- *)
(** ** The search handler *)
(* --------------------------------------------------------------------- *)


Lemma search_debug_trace results t : snd (search_debug results t) = t.
Proof.
  unfold search_debug.
  destruct results; simpl; try reflexivity.
  destruct (contains (lit "data") d); [|reflexivity].
  unfold bind, lift, ret. now destruct (py_len _).
Qed.


Lemma search_body_empty args t :
  args_get (lit "q") (lit "") args = [] ->
  search_body upstream args t
  = (Ok (Body (render_template "search.html"
                 [("results"%string, PyNone);
                  ("query"%string, PyStr (lit ""));
                  ("search_type"%string,
                   PyStr (args_get (lit "type") (lit "track") args))])),
     t).
Proof.
  intros Hq. unfold search_body. cbv zeta. rewrite Hq. reflexivity.
Qed.



(* --------------------------------------------------------------------- *)
(** ** Percent-encoding *)
(* --------------------------------------------------------------------- *)

Lemma Some_eq {A} (x y : A) : Some x = Some y -> x = y.
Proof. congruence. Qed.

Ltac bytes_below :=
  let H := fresh in
  intros H; apply Some_eq in H; subst;
  repeat (apply Forall_cons; [zify; Z.to_euclidean_division_equations; lia|]);
  apply Forall_nil.

Lemma utf8_encode_char_bytes c bs :
  utf8_encode_char c = Some bs -> Forall (fun b => b < 256) bs.
Proof.
  unfold utf8_encode_char.
  destruct (N.ltb_spec c 0x80); [bytes_below|].
  destruct (N.ltb_spec c 0x800); [bytes_below|].
  destruct (N.ltb_spec c 0x10000).
  { destruct ((0xD800 <=? c) && (c <=? 0xDFFF)); [discriminate | bytes_below]. }
  destruct (N.ltb_spec c 0x110000); [bytes_below | discriminate].
Qed.

Lemma utf8_encode_bytes s : forall bs,
  utf8_encode s = Some bs -> Forall (fun b => b < 256) bs.
Proof.
  induction s as [|c s IH]; simpl; intros bs.
  - intros [= <-]. constructor.
  - destruct (utf8_encode_char c) as [hd|] eqn:Hc; [|discriminate].
    destruct (utf8_encode s) as [tl|]; [|discriminate].
    intros [= <-]. apply Forall_app. split.
    + now apply utf8_encode_char_bytes with c.
    + now apply IH.
Qed.







Lemma search_body_page args t r t' :
  search_body upstream args t = (Ok r, t') ->
  exists p, r = Body p /\ template p = "search.html"%string.
Proof.
  unfold search_body, bind. cbv zeta.
  match goal with
  | |- context [match ?m t with _ => _ end] => destruct (m t) as [[res|e] t'']
  end; [|discriminate].
  unfold ret. intros [= <- _]. eexists. split; reflexivity.
Qed.

End GatewayFacts.

(* --------------------------------------------------------------------- *)
(** ** The template filters *)
(* --------------------------------------------------------------------- *)

Section FilterFacts.

Variable unicode_decimal : N -> option N.
Variable py_repr : value -> str.

Lemma py_int_not_None v k : py_int unicode_decimal v = Ok k -> is_None v = false.
Proof. destruct v; simpl; intros H; try reflexivity; discriminate. Qed.

(** What the two filters do where the specification is right about them, on
    numbers within the digit limit ([full_filters_contract] has the limit). *)
Lemma filters_contract :
  format_number unicode_decimal py_repr PyNone = Ok (lit "0")
  /\ format_duration unicode_decimal PyNone = Ok (lit "0:00")
  /\ format_duration unicode_decimal (PyInt 125) = Ok (lit "2:05")
  /\ (forall v k, py_int unicode_decimal v = Ok k -> format_number unicode_decimal py_repr v = Ok (format_comma k))
  /\ (forall v e, v <> PyNone -> py_int unicode_decimal v = Raise e ->
        isinstance e CValueError || isinstance e CTypeError = true ->
        format_number unicode_decimal py_repr v = Ok (py_str py_repr v)
        /\ format_duration unicode_decimal v = Ok (lit "0:00")).
Proof.
  split; [reflexivity|]. split; [reflexivity|]. split; [reflexivity|]. split.
  - intros v k Hv. unfold format_number.
    rewrite (py_int_not_None v k Hv), Hv. reflexivity.
  - intros v e Hn He Hc.
    assert (Hv : is_None v = false) by (destruct v; [contradiction | reflexivity ..]).
    unfold format_number, format_duration, try_except.
    rewrite Hv, He. cbn [rbind existsb]. rewrite orb_false_r, Hc.
    split; reflexivity.
Qed.


(** C8 (the defect).  On an infinite float [int(value)] raises
    [OverflowError], which neither filter's [except (ValueError, TypeError)]
    clause catches: both filters raise. *)
Theorem filters_raise_on_infinity (negative : bool) :
  format_number unicode_decimal py_repr (PyFloat (FInf negative)) = Raise OverflowError
  /\ format_duration unicode_decimal (PyFloat (FInf negative)) = Raise OverflowError.
Proof. split; reflexivity. Qed.

Lemma format_02d_two_digits s :
  (0 <= s <= 59)%Z ->
  format_02d s = [48 + Z.to_N s / 10; 48 + Z.to_N s mod 10].
Proof.
  intros Hs. rewrite <- (Z2Nat.id s) by lia.
  assert (Hn : (Z.to_nat s < 60)%nat) by lia.
  generalize dependent (Z.to_nat s). clear. intros n Hn.
  do 60 (destruct n as [|n]; [reflexivity|]). lia.
Qed.

End FilterFacts.

(* --------------------------------------------------------------------- *)
(** ** Where the code and the specification part *)
(* --------------------------------------------------------------------- *)



(* --------------------------------------------------------------------- *)
(** ** The theorems at concrete inputs *)
(* --------------------------------------------------------------------- *)






(* ===================================================================== *)
(** * Further properties of the handlers *)
(* ===================================================================== *)

Section HandlerFacts.

Variable upstream : trace -> str -> result response.
Variable exn_text : exn -> str.

Lemma count_debug_trace data t : snd (count_debug data t) = t.
Proof.
  unfold count_debug. destruct (truthy data); [|reflexivity].
  unfold bind, lift, ret. now destruct (rbind _ _).
Qed.

Lemma track_debug_trace data t : snd (track_debug data t) = t.
Proof.
  unfold track_debug. destruct (truthy data); [|reflexivity].
  unfold bind, lift, ret. now destruct (method_get _ _ _).
Qed.


Lemma track_debug_outcome data t :
  fst (track_debug data t)
  = if truthy data && negb (is_dict data) then Raise AttributeError else Ok tt.
Proof.
  unfold track_debug. destruct (truthy data); [|reflexivity].
  now destruct data.
Qed.

(** A view that calls the gateway once and renders. *)
Lemma one_call_view endpoint (k : value -> view_return) t :
  bind (make_api_request upstream endpoint) (fun data => ret (k data)) t
  = (Ok (k (classify (reply upstream endpoint t))), t ++ call_events endpoint).
Proof. unfold bind. now rewrite make_api_request_run. Qed.

(** A view that calls the gateway once, runs a debug block and renders. *)
Lemma one_call_debug_view endpoint (debug : value -> M unit)
    (k : value -> view_return) t :
  (forall data t', snd (debug data t') = t') ->
  bind (make_api_request upstream endpoint)
       (fun data => bind (debug data) (fun _ => ret (k data))) t
  = (match fst (debug (classify (reply upstream endpoint t))
                  (t ++ call_events endpoint)) with
     | Ok _ => Ok (k (classify (reply upstream endpoint t)))
     | Raise e => Raise e
     end,
     t ++ call_events endpoint).
Proof.
  intros Hd. unfold bind. rewrite make_api_request_run.
  fold (call_events endpoint).
  pose proof (Hd (classify (reply upstream endpoint t)) (t ++ call_events endpoint)) as H.
  destruct (debug _ _) as [[u|e] t']; simpl in *; now subst t'.
Qed.


(* --------------------------------------------------------------------- *)
(** ** The search handler, case by case *)
(* --------------------------------------------------------------------- *)


Lemma search_body_unencodable args t c query e :
  args_get (lit "q") (lit "") args = c :: query ->
  quote (c :: query) = Raise e ->
  search_body upstream args t = (Raise e, t).
Proof.
  intros Hq Hquote. unfold search_body. cbv zeta. rewrite Hq, Hquote.
  reflexivity.
Qed.

Lemma search_body_run args t c query encoded :
  args_get (lit "q") (lit "") args = c :: query ->
  quote (c :: query) = Ok encoded ->
  let endpoint :=
    lit "search/" ++ args_get (lit "type") (lit "track") args ++ lit "?q="
      ++ encoded ++ lit "&limit=10" in
  let results := classify (reply upstream endpoint t) in
  search_body upstream args t
  = (match fst (search_debug results (t ++ call_events endpoint)) with
     | Ok _ =>
         Ok (Body (render_template "search.html"
                     [("results"%string, results);
                      ("query"%string, PyStr (c :: query));
                      ("search_type"%string,
                       PyStr (args_get (lit "type") (lit "track") args))]))
     | Raise e => Raise e
     end,
     t ++ call_events endpoint).
Proof.
  intros Hq Hquote endpoint results. unfold search_body. cbv zeta.
  rewrite Hq, Hquote.
  unfold bind at 1 2. unfold lift at 1. unfold bind at 1.
  fold endpoint. rewrite make_api_request_run.
  fold results. fold (call_events endpoint).
  unfold bind.
  pose proof (search_debug_trace results (t ++ call_events endpoint)) as Hd.
  destruct (search_debug results (t ++ call_events endpoint)) as [[u|e] t'];
    simpl in *; now subst t'.
Qed.


(* --------------------------------------------------------------------- *)
(** ** All the views at once *)
(* --------------------------------------------------------------------- *)





Ltac clean_context H :=
  let key := fresh "key" in
  let v := fresh "v" in
  let Hin := fresh "Hin" in
  injection H as <-; intros key v Hin; cbn [context render_template] in Hin;
  repeat (destruct Hin as [Hin|Hin];
          [injection Hin as _ <-; first [apply classify_no_error | reflexivity]|]);
  contradiction.


(** X8.  No view hands a template an upstream error payload: in every page a
    view returns, no entry of the context is a mapping with a top-level
    [error] key. *)
Theorem rendered_context_clean (r : request) (t : trace) (p : page) :
  fst (view upstream exn_text r t) = Ok (Body p) ->
  forall key v, In (key, v) (context p) -> has_error_key v = false.
Proof.
  destruct r as [|args|id|id| |id|id|id|id| | |id]; cbn [view].
  - unfold index, bind. rewrite !make_api_request_run. cbn [fst].
    intros H. clean_context H.
  - unfold search, try_catch.
    destruct (args_get (lit "q") (lit "") args) as [|c query] eqn:Hq.
    + rewrite search_body_empty by exact Hq. cbn [fst].
      intros H. clean_context H.
    + destruct (quote (c :: query)) as [encoded|e] eqn:Hquote.
      * rewrite (search_body_run args t c query encoded Hq Hquote).
        destruct (fst (search_debug _ _)); cbn [find isinstance fst snd ret];
          intros H; clean_context H.
      * rewrite (search_body_unencodable args t c query e Hq Hquote).
        cbn [find isinstance fst snd ret]. intros H. clean_context H.
  - unfold user_detail. rewrite (one_call_view _ (fun data => Body _)).
    cbn [fst]. intros H. clean_context H.
  - unfold track_detail.
    rewrite (one_call_debug_view _ track_debug (fun data => Body _))
      by apply track_debug_trace.
    cbn [fst]. destruct (fst (track_debug _ _)); [|discriminate].
    intros H. clean_context H.
  - unfold editorial_list.
    rewrite (one_call_debug_view _ count_debug (fun data => Body _))
      by apply count_debug_trace.
    cbn [fst]. destruct (fst (count_debug _ _)); [|discriminate].
    intros H. clean_context H.
  - unfold editorial_detail.
    rewrite (one_call_debug_view _ count_debug (fun data => Body _))
      by apply count_debug_trace.
    cbn [fst]. destruct (fst (count_debug _ _)); [|discriminate].
    intros H. clean_context H.
  - unfold album_detail. rewrite (one_call_view _ (fun data => Body _)).
    cbn [fst]. intros H. clean_context H.
  - unfold artist_detail, bind. rewrite !make_api_request_run. cbn [fst].
    intros H. clean_context H.
  - unfold playlist_detail. rewrite (one_call_view _ (fun data => Body _)).
    cbn [fst]. intros H. clean_context H.
  - unfold genre_list.
    rewrite (one_call_debug_view _ count_debug (fun data => Body _))
      by apply count_debug_trace.
    cbn [fst]. destruct (fst (count_debug _ _)); [|discriminate].
    intros H. clean_context H.
  - unfold radio_list.
    rewrite (one_call_debug_view _ count_debug (fun data => Body _))
      by apply count_debug_trace.
    cbn [fst]. destruct (fst (count_debug _ _)); [|discriminate].
    intros H. clean_context H.
  - unfold episode_detail. rewrite (one_call_view _ (fun data => Body _)).
    cbn [fst]. intros H. clean_context H.
Qed.

End HandlerFacts.

(* ===================================================================== *)
(** * Further properties of the gateway and the filters *)
(* ===================================================================== *)


Section DecimalFacts.

Variable unicode_decimal : N -> option N.
Variable py_repr : value -> str.

Lemma str_of_uint_digits d : Forall is_digit (str_of_uint d).
Proof.
  induction d; simpl; constructor; auto; unfold is_digit; lia.
Qed.

Lemma parse_digits_step acc after_digit c rest :
  is_digit c ->
  parse_digits unicode_decimal acc after_digit (c :: rest)
  = parse_digits unicode_decimal (10 * acc + Z.of_N (c - 48)) true rest.
Proof.
  intros [Hlo Hhi]. cbn [parse_digits]. unfold to_decimal.
  destruct (N.eqb_spec c 95); [lia|].
  destruct (N.ltb_spec c 128); [|lia].
  destruct (N.leb_spec 48 c); [|lia].
  destruct (N.leb_spec c 57); [|lia].
  reflexivity.
Qed.

Ltac digit_case IH :=
  cbn [str_of_uint Pos.of_uint_acc Pos.of_uint];
  rewrite parse_digits_step by (unfold is_digit; lia);
  try match goal with
      | |- context [Z.of_N (N.pos ?p)] => change (Z.of_N (N.pos p)) with (Z.pos p)
      end;
  first [rewrite <- IH; f_equal; lia | idtac].

Lemma parse_digits_acc d : forall acc,
  parse_digits unicode_decimal (Zpos acc) true (str_of_uint d)
  = Some (Zpos (Pos.of_uint_acc d acc)).
Proof.
  induction d; intros acc; [reflexivity | ..]; digit_case IHd.
Qed.

Lemma parse_digits_uint d : forall after_digit,
  after_digit = true \/ d <> Decimal.Nil ->
  parse_digits unicode_decimal 0 after_digit (str_of_uint d)
  = Some (Z.of_N (Pos.of_uint d)).
Proof.
  induction d; intros after_digit H;
    [destruct H as [-> | H]; [reflexivity | contradiction] | ..];
    digit_case parse_digits_acc.
  apply IHd. now left.
Qed.

Lemma strip_by_none (p : N -> bool) s :
  Forall (fun c => p c = false) s -> rstrip_by p (lstrip_by p s) = s.
Proof.
  intros H.
  assert (Hl : forall x, Forall (fun c => p c = false) x -> lstrip_by p x = x).
  { intros x Hx. destruct Hx as [|c x Hc _]; [reflexivity|]. simpl. now rewrite Hc. }
  rewrite (Hl s H). unfold rstrip_by.
  rewrite Hl by (apply Forall_rev; exact H). apply rev_involutive.
Qed.

Lemma digits_are_digits n : Forall is_digit (digits n).
Proof. apply str_of_uint_digits. Qed.

Lemma to_uint_nonnil n : N.to_uint n <> Decimal.Nil.
Proof.
  destruct n as [|p]; [discriminate|]. apply DecimalPos.Unsigned.to_uint_nonnil.
Qed.

Lemma digits_nonempty n : exists c rest, digits n = c :: rest /\ is_digit c.
Proof.
  pose proof (digits_are_digits n) as H. unfold digits in *.
  pose proof (to_uint_nonnil n) as Hn.
  destruct (N.to_uint n); [contradiction | ..]; simpl in *;
    inversion H; subst; eauto.
Qed.

Lemma parse_digits_digits n :
  parse_digits unicode_decimal 0 false (digits n) = Some (Z.of_N n).
Proof.
  unfold digits. rewrite parse_digits_uint by (right; apply to_uint_nonnil).
  change (Pos.of_uint (N.to_uint n)) with (N.of_uint (N.to_uint n)).
  now rewrite DecimalN.Unsigned.of_to.
Qed.

Lemma int_space_digit c : is_digit c -> int_space c = false.
Proof.
  intros [Hlo Hhi]. unfold int_space.
  destruct (N.ltb_spec c 127); [|lia].
  destruct (N.leb_spec 9 c), (N.leb_spec c 13), (N.eqb_spec c 32);
    try reflexivity; lia.
Qed.

(** A literal that begins with a digit has no sign to take off. *)
Lemma int_of_str_unsigned c rest :
  is_digit c ->
  Forall (fun c => int_space c = false) (c :: rest) ->
  int_of_str unicode_decimal (c :: rest)
  = match parse_digits unicode_decimal 0 false (c :: rest) with
    | Some z => Ok z
    | None => Raise ValueError
    end.
Proof.
  intros Hc Hs. unfold int_of_str. rewrite strip_by_none by exact Hs.
  unfold is_digit in Hc.
  destruct c as [|p]; [lia|].
  do 6 (try destruct p as [p|p|]); try reflexivity; lia.
Qed.

Lemma int_of_str_negative ds :
  Forall (fun c => int_space c = false) ds ->
  int_of_str unicode_decimal (45 :: ds)
  = match option_map Z.opp (parse_digits unicode_decimal 0 false ds) with
    | Some z => Ok z
    | None => Raise ValueError
    end.
Proof.
  intros Hs. unfold int_of_str.
  rewrite strip_by_none by (constructor; [reflexivity | exact Hs]).
  reflexivity.
Qed.

(** [int(str(z))] is [z]. *)
Lemma int_of_str_of_int z : int_of_str unicode_decimal (str_of_int z) = Ok z.
Proof.
  assert (Hs : Forall (fun c => int_space c = false) (digits (Z.abs_N z))).
  { eapply Forall_impl; [|apply digits_are_digits]. apply int_space_digit. }
  unfold str_of_int, sign_of. destruct (Z.ltb_spec z 0).
  - cbn [minus_sign app]. rewrite int_of_str_negative by exact Hs.
    rewrite parse_digits_digits. cbn [option_map]. f_equal. lia.
  - cbn [app]. destruct (digits_nonempty (Z.abs_N z)) as (c & rest & Hd & Hc).
    rewrite Hd in *. rewrite int_of_str_unsigned by assumption.
    rewrite <- Hd, parse_digits_digits. f_equal. lia.
Qed.

Lemma str_of_int_inj a b : str_of_int a = str_of_int b -> a = b.
Proof.
  intros H. pose proof (int_of_str_of_int a) as Ha.
  rewrite H, int_of_str_of_int in Ha. congruence.
Qed.

Lemma app_same_tail_length {A} (l1 l2 t1 t2 : list A) :
  l1 ++ t1 = l2 ++ t2 -> List.length t1 = List.length t2 -> l1 = l2 /\ t1 = t2.
Proof.
  revert l2. induction l1 as [|a l1 IH]; intros [|b l2] H Hlen; simpl in *.
  - auto.
  - subst t1. simpl in Hlen. rewrite length_app in Hlen. lia.
  - subst t2. simpl in Hlen. rewrite length_app in Hlen. lia.
  - injection H as -> H. destruct (IH l2 H Hlen) as [-> ->]. auto.
Qed.

(* --------------------------------------------------------------------- *)
(** ** Grouping by thousands *)
(* --------------------------------------------------------------------- *)

(** Induction along the recursion of [group3]: three characters at a time. *)
Lemma group3_ind (P : str -> str -> Prop) :
  (forall r, (List.length r <= 3)%nat -> P r r) ->
  (forall a b c d rest,
     P (d :: rest) (group3 (d :: rest)) ->
     P (a :: b :: c :: d :: rest) (a :: b :: c :: 44 :: group3 (d :: rest))) ->
  forall r, P r (group3 r).
Proof.
  intros Hsmall Hstep.
  assert (H : forall n r, (List.length r <= n)%nat -> P r (group3 r)).
  { induction n as [|n IH]; intros r Hr.
    - destruct r; [|simpl in Hr; lia]. apply Hsmall. simpl. lia.
    - destruct r as [|a [|b [|c [|d rest]]]];
        try (apply Hsmall; simpl; lia).
      change (group3 (a :: b :: c :: d :: rest))
        with (a :: b :: c :: 44 :: group3 (d :: rest)).
      apply Hstep. apply IH. simpl in *. lia. }
  intros r. now apply (H (List.length r)).
Qed.

Lemma digit_not_comma c : is_digit c -> not_comma c = true.
Proof.
  intros [Hlo Hhi]. unfold not_comma. destruct (N.eqb_spec c 44); [lia | reflexivity].
Qed.

Lemma filter_digits r : Forall is_digit r -> filter not_comma r = r.
Proof.
  induction 1 as [|c r Hc _ IH]; simpl; [reflexivity|].
  now rewrite (digit_not_comma c Hc), IH.
Qed.

Lemma group3_filter r : Forall is_digit r -> filter not_comma (group3 r) = r.
Proof.
  apply (group3_ind (fun r g => Forall is_digit r -> filter not_comma g = r)).
  - intros r0 _. apply filter_digits.
  - intros a b c d rest IH H.
    inversion H as [|? ? Ha H1]; subst.
    inversion H1 as [|? ? Hb H2]; subst.
    inversion H2 as [|? ? Hc H3]; subst.
    cbn [filter].
    rewrite (digit_not_comma a Ha), (digit_not_comma b Hb), (digit_not_comma c Hc).
    change (not_comma 44) with false. cbv iota.
    now rewrite (IH H3).
Qed.

Lemma group3_length r :
  List.length (group3 r) = (List.length r + (List.length r - 1) / 3)%nat.
Proof.
  apply (group3_ind (fun r g =>
           List.length g = (List.length r + (List.length r - 1) / 3)%nat)).
  - intros r0 Hr. rewrite Nat.div_small by lia. lia.
  - intros a b c d rest IH. cbn [List.length] in *. rewrite IH.
    replace (S (S (S (S (List.length rest)))) - 1)%nat
      with ((S (List.length rest) - 1) + 1 * 3)%nat by lia.
    rewrite Nat.div_add by lia. lia.
Qed.

Lemma group3_commas r :
  Forall is_digit r ->
  forall i, (i < List.length (group3 r))%nat ->
            (nth i (group3 r) 0 = 44 <-> (i mod 4 = 3)%nat).
Proof.
  apply (group3_ind (fun r g =>
           Forall is_digit r ->
           forall i, (i < List.length g)%nat ->
                     (nth i g 0 = 44 <-> (i mod 4 = 3)%nat))).
  - intros r0 Hr Hd i Hi. rewrite Nat.mod_small by lia.
    assert (Hn : is_digit (nth i r0 0)).
    { eapply Forall_forall; [exact Hd | now apply nth_In]. }
    unfold is_digit in Hn. split; intros; lia.
  - intros a b c d rest IH H i Hi.
    inversion H as [|? ? Ha H1]; subst.
    inversion H1 as [|? ? Hb H2]; subst.
    inversion H2 as [|? ? Hc H3]; subst.
    unfold is_digit in Ha, Hb, Hc.
    destruct i as [|[|[|[|j]]]]; cbn [nth].
    + change (0 mod 4)%nat with 0%nat. split; intros; lia.
    + change (1 mod 4)%nat with 1%nat. split; intros; lia.
    + change (2 mod 4)%nat with 2%nat. split; intros; lia.
    + change (3 mod 4)%nat with 3%nat. split; reflexivity.
    + replace (S (S (S (S j)))) with (j + 1 * 4)%nat by lia.
      rewrite Nat.Div0.mod_add. apply (IH H3). cbn [List.length] in Hi. lia.
Qed.

(** X12.  Grouping by thousands only adds commas: taking them out of
    ["{:,}".format(z)] leaves [str(z)]; there is one comma for every full
    group of three digits after the first digit, and, counting from the right
    end, the digits part has a comma exactly at every fourth place. *)
Theorem format_comma_grouping (z : Z) :
  filter not_comma (format_comma z) = str_of_int z
  /\ List.length (format_comma z)
     = (List.length (str_of_int z)
        + (List.length (digits (Z.abs_N z)) - 1) / 3)%nat
  /\ (forall i,
        (i < List.length (format_comma z) - List.length (sign_of z))%nat ->
        (nth i (rev (format_comma z)) 0 = 44 <-> (i mod 4 = 3)%nat)).
Proof.
  pose proof (digits_are_digits (Z.abs_N z)) as Hd.
  assert (Hr : Forall is_digit (rev (digits (Z.abs_N z)))) by now apply Forall_rev.
  assert (Hsign : filter not_comma (sign_of z) = sign_of z)
    by (unfold sign_of; now destruct (z <? 0)%Z).
  unfold format_comma, str_of_int. split; [|split].
  - rewrite filter_app, filter_rev, group3_filter, rev_involutive by exact Hr.
    now rewrite Hsign.
  - rewrite !length_app, length_rev, group3_length, length_rev. lia.
  - intros i Hi. rewrite rev_app_distr, rev_involutive.
    rewrite length_app, length_rev in Hi.
    rewrite app_nth1 by lia. apply group3_commas; [exact Hr | lia].
Qed.

(* --------------------------------------------------------------------- *)
(** ** When the filters raise *)
(* --------------------------------------------------------------------- *)

End DecimalFacts.

(* --------------------------------------------------------------------- *)
(** ** Percent-encoding loses nothing *)
(* --------------------------------------------------------------------- *)

Ltac euclid := zify; Z.to_euclidean_division_equations; lia.

Lemma hex_value_digit n : n < 16 -> hex_value (hex_digit n) = n.
Proof.
  intros H.
  assert (Hn : In n [0; 1; 2; 3; 4; 5; 6; 7; 8; 9; 10; 11; 12; 13; 14; 15])
    by (simpl; lia).
  simpl in Hn.
  repeat (destruct Hn as [<-|Hn]; [reflexivity|]).
  contradiction.
Qed.

Lemma always_safe_ascii c : always_safe c = true -> c < 127 /\ c <> percent.
Proof.
  unfold always_safe, percent.
  rewrite !orb_true_iff, !andb_true_iff, !N.leb_le, !N.eqb_eq. lia.
Qed.

Lemma unquote_quoter b rest :
  b < 256 ->
  unquote_bytes (quoter [slash] b ++ rest) = b :: unquote_bytes rest.
Proof.
  intros Hb. unfold quoter.
  destruct (always_safe b || existsb (N.eqb b) [slash]) eqn:Hs.
  - assert (Hp : b <> percent).
    { apply orb_true_iff in Hs as [Hs|Hs].
      - now apply always_safe_ascii.
      - apply slash_in_set in Hs. subst b. discriminate. }
    cbn [app unquote_bytes].
    destruct (N.eqb_spec b percent); [contradiction | reflexivity].
  - cbn [app unquote_bytes]. rewrite N.eqb_refl.
    rewrite !hex_value_digit
      by (first [now apply N.Div0.div_lt_upper_bound | now apply N.mod_lt]).
    f_equal. symmetry. now apply N.div_mod.
Qed.

Lemma unquote_quoted bs :
  Forall (fun b => b < 256) bs ->
  unquote_bytes (flat_map (quoter [slash]) bs) = bs.
Proof.
  induction 1 as [|b bs Hb _ IH]; [reflexivity|].
  cbn [flat_map]. now rewrite unquote_quoter, IH.
Qed.

Lemma utf8_decode_char c bs rest :
  utf8_encode_char c = Some bs ->
  utf8_decode (bs ++ rest) = c :: utf8_decode rest.
Proof.
  unfold utf8_encode_char.
  destruct (N.ltb_spec c 0x80) as [H1|H1].
  { intros H. apply Some_eq in H. subst bs. cbn [app utf8_decode].
    destruct (N.ltb_spec c 0x80); [reflexivity | lia]. }
  destruct (N.ltb_spec c 0x800) as [H2|H2].
  { intros H. apply Some_eq in H. subst bs. cbn [app utf8_decode].
    destruct (N.ltb_spec (0xC0 + c / 0x40) 0x80); [euclid|].
    destruct (N.ltb_spec (0xC0 + c / 0x40) 0xE0); [|euclid].
    f_equal. euclid. }
  destruct (N.ltb_spec c 0x10000) as [H3|H3].
  { destruct ((0xD800 <=? c) && (c <=? 0xDFFF)); [discriminate|].
    intros H. apply Some_eq in H. subst bs. cbn [app utf8_decode].
    destruct (N.ltb_spec (0xE0 + c / 0x1000) 0x80); [euclid|].
    destruct (N.ltb_spec (0xE0 + c / 0x1000) 0xE0); [euclid|].
    destruct (N.ltb_spec (0xE0 + c / 0x1000) 0xF0); [|euclid].
    f_equal. euclid. }
  destruct (N.ltb_spec c 0x110000) as [H4|H4]; [|discriminate].
  intros H. apply Some_eq in H. subst bs. cbn [app utf8_decode].
  destruct (N.ltb_spec (0xF0 + c / 0x40000) 0x80); [euclid|].
  destruct (N.ltb_spec (0xF0 + c / 0x40000) 0xE0); [euclid|].
  destruct (N.ltb_spec (0xF0 + c / 0x40000) 0xF0); [euclid|].
  f_equal. euclid.
Qed.

Lemma utf8_decode_encode s : forall bs,
  utf8_encode s = Some bs -> utf8_decode bs = s.
Proof.
  induction s as [|c s IH]; intros bs; cbn [utf8_encode].
  - intros H. apply Some_eq in H. now subst bs.
  - destruct (utf8_encode_char c) as [hd|] eqn:Hc; [|discriminate].
    destruct (utf8_encode s) as [tl|]; [|discriminate].
    intros H. apply Some_eq in H. subst bs.
    rewrite (utf8_decode_char c hd tl Hc). f_equal. now apply IH.
Qed.

Lemma quote_decodable s x :
  quote s = Ok x -> utf8_decode (unquote_bytes x) = s.
Proof.
  unfold quote. destruct s as [|c s]; [now intros [= <-]|].
  destruct (utf8_encode (c :: s)) as [bs|] eqn:Hbs; [|discriminate].
  intros [= <-]. rewrite unquote_quoted by now apply utf8_encode_bytes with (c :: s).
  now apply utf8_decode_encode.
Qed.

(** X14.  [quote] loses nothing: two queries with the same encoded text are
    the same query. *)
Theorem quote_injective (a b x : str) :
  quote a = Ok x -> quote b = Ok x -> a = b.
Proof.
  intros Ha Hb. apply quote_decodable in Ha, Hb. congruence.
Qed.


(* --------------------------------------------------------------------- *)
(** ** When the gateway answers [None] *)
(* --------------------------------------------------------------------- *)


(* --------------------------------------------------------------------- *)
(** ** Floats lose their fraction *)
(* --------------------------------------------------------------------- *)

(** X17.  Of a finite float with a fractional part, [m * 2^e] with [e < 0],
    both filters show the integer part: the integer [k] towards zero, with
    [|k| <= |m * 2^e| < |k| + 1] and never of the opposite sign. *)
Theorem filters_truncate_floats (unicode_decimal : N -> option N)
    (py_repr : value -> str) (m e : Z) :
  (e < 0)%Z ->
  exists k,
    format_number unicode_decimal py_repr (PyFloat (FFinite m e))
    = Ok (format_comma k)
    /\ format_duration unicode_decimal (PyFloat (FFinite m e))
       = format_duration unicode_decimal (PyInt k)
    /\ (Z.abs k * 2 ^ (- e) <= Z.abs m < (Z.abs k + 1) * 2 ^ (- e))%Z
    /\ (0 <= k * m)%Z.
Proof.
  intros He. exists (Z.quot m (2 ^ (- e))).
  assert (Hd : (0 < 2 ^ (- e))%Z) by (apply Z.pow_pos_nonneg; lia).
  set (d := (2 ^ (- e))%Z) in *.
  assert (Hq : (0 <=? e)%Z = false) by (apply Z.leb_gt; exact He).
  split; [|split; [|split]].
  - unfold format_number. cbn [is_None py_int int_of_float]. now rewrite Hq.
  - unfold format_duration. cbn [is_None py_int int_of_float]. now rewrite Hq.
  - rewrite <- Z.quot_abs by lia. rewrite (Z.abs_eq d) by lia.
    rewrite Z.quot_div_nonneg by lia.
    pose proof (Z.mul_div_le (Z.abs m) d Hd).
    pose proof (Z.mul_succ_div_gt (Z.abs m) d Hd). lia.
  - pose proof (Z.quot_rem' m d) as Hm.
    destruct (Z.le_gt_cases 0 m) as [Hp|Hn].
    + apply Z.mul_nonneg_nonneg; [|exact Hp]. apply Z.quot_pos; lia.
    + apply Z.mul_nonpos_nonpos; [|lia].
      rewrite <- (Z.opp_involutive m), Z.quot_opp_l by lia.
      assert (0 <= Z.quot (- m) d)%Z by (apply Z.quot_pos; lia). lia.
Qed.

(* --------------------------------------------------------------------- *)
(** ** The further theorems at concrete inputs *)
(* --------------------------------------------------------------------- *)



Lemma rendered_context_clean_witness :
  has_error_key (PyDict [(lit "id", PyInt 27)]) = false.
Proof.
  apply (rendered_context_clean (always 200 (Ok (PyDict [(lit "id", PyInt 27)])))
           plain_text (GetArtist (lit "27")) []
           (render_template "detail.html"
              [("data"%string, PyDict [(lit "id", PyInt 27)]);
               ("top_tracks"%string, PyDict [(lit "id", PyInt 27)]);
               ("title"%string, PyStr (lit "Artist Details"));
               ("type"%string, PyStr (lit "artist"))])
           eq_refl "data"%string).
  simpl. left. reflexivity.
Defined.



Lemma format_comma_grouping_witness :
  nth 3 (rev (format_comma (-1234567))) 0 = 44.
Proof.
  apply (proj2 (proj2 (format_comma_grouping (-1234567))) 3%nat).
  - simpl. lia.
  - reflexivity.
Defined.

Lemma quote_injective_witness :
  quote (lit "a b") = Ok (lit "a%20b")
  /\ quote [97; 32; 98] = Ok (lit "a%20b")
  /\ lit "a b" = [97; 32; 98].
Proof.
  split; [reflexivity|]. split; [reflexivity|].
  apply (quote_injective (lit "a b") [97; 32; 98] (lit "a%20b")); reflexivity.
Defined.

Lemma filters_truncate_floats_witness :
  exists k,
    format_number ascii_only plain_repr (PyFloat (FFinite (-3) (-1)))
    = Ok (format_comma k)
    /\ format_duration ascii_only (PyFloat (FFinite (-3) (-1)))
       = format_duration ascii_only (PyInt k)
    /\ (Z.abs k * 2 ^ (- -1) <= Z.abs (-3) < (Z.abs k + 1) * 2 ^ (- -1))%Z
    /\ (0 <= k * -3)%Z.
Proof.
  apply (filters_truncate_floats ascii_only plain_repr (-3) (-1)). lia.
Defined.

(* ===================================================================== *)
(** * The code with its prints *)
(* ===================================================================== *)

Lemma bind_ret {A B} (a : A) (k : A -> M B) t : bind (ret a) k t = k a t.
Proof. reflexivity. Qed.

Lemma bind_lift {A B} (r : result A) (k : A -> M B) t :
  bind (lift r) k t = match r with Ok a => k a t | Raise e => (Raise e, t) end.
Proof. unfold bind, lift. now destruct r. Qed.

Lemma bind_emit {B} ev (k : unit -> M B) t : bind (emit ev) k t = k tt (t ++ [ev]).
Proof. reflexivity. Qed.

Lemma bind_print {B} h line (k : unit -> M B) t :
  bind (Full.py_print h line) k t
  = match Full.stdout h line with
    | None => k tt t
    | Some e => (Raise e, t)
    end.
Proof. unfold bind, Full.py_print. now destruct (Full.stdout h line). Qed.

Lemma Ok_inj {A} (x y : A) : Ok x = Ok y -> x = y.
Proof. congruence. Qed.

Lemma int_str_raises z e :
  Full.int_str z = Raise e -> e = ValueError /\ Full.fits z = false.
Proof.
  unfold Full.int_str. destruct (Full.fits z); [discriminate|].
  intros [= <-]. auto.
Qed.

Lemma fits_200 : Full.fits 200 = true.
Proof. reflexivity. Qed.

Section QuietHost.

Variable h : Full.host.
Hypothesis Hquiet : Full.quiet h.

Lemma bind_print_quiet {B} line (k : unit -> M B) t :
  bind (Full.py_print h line) k t = k tt t.
Proof. rewrite bind_print. now rewrite Hquiet. Qed.

Lemma print_quiet line t : Full.py_print h line t = (Ok tt, t).
Proof. unfold Full.py_print. now rewrite Hquiet. Qed.

(** Every clause of the gateway prints and returns [None]. *)
Lemma gateway_clauses_quiet response e t :
  Full.handle (Full.gateway_clauses h response) e t = (Ok PyNone, t).
Proof.
  unfold Full.handle, Full.gateway_clauses.
  destruct e; cbn [find isinstance fst snd];
    now rewrite ?bind_print_quiet.
Qed.

(** With a standard output that takes every line, the gateway with its
    prints does what the gateway without them does. *)
Lemma full_gateway_quiet endpoint t :
  Full.make_api_request h endpoint t
  = (Ok (classify (reply (Full.http h) endpoint t)), t ++ call_events endpoint).
Proof.
  unfold Full.make_api_request. rewrite bind_emit.
  unfold Full.try_with_local. cbv zeta.
  rewrite bind_print_quiet. unfold requests_get, reply, call_events, request_url.
  cbv zeta.
  replace (t ++ [GatewayCall endpoint;
                 HttpGet (DEEZER_BASE_URL ++ lit "/" ++ lstrip [slash] (strip endpoint))])
    with ((t ++ [GatewayCall endpoint])
          ++ [HttpGet (DEEZER_BASE_URL ++ lit "/" ++ lstrip [slash] (strip endpoint))])
    by (now rewrite <- app_assoc).
  destruct (Full.http h _ _) as [resp|e]; [|apply gateway_clauses_quiet].
  rewrite bind_lift. unfold classify.
  destruct (Full.int_str (status_code resp)) as [status|e] eqn:Hs.
  - rewrite bind_print_quiet.
    destruct (status_code resp =? 200)%Z; cbn [negb].
    + rewrite bind_lift.
      destruct (response_json resp) as [data|e]; [|apply gateway_clauses_quiet].
      destruct (has_error_key data).
      * rewrite bind_lift.
        destruct (Full.py_str _ _); [|apply gateway_clauses_quiet].
        now rewrite bind_print_quiet.
      * now rewrite bind_print_quiet.
    + rewrite bind_lift. now rewrite bind_print_quiet.
  - apply int_str_raises in Hs as [-> Hfits].
    destruct (Z.eqb_spec (status_code resp) 200) as [H200|_];
      [rewrite H200, fits_200 in Hfits; discriminate|].
    apply gateway_clauses_quiet.
Qed.

End QuietHost.

(* --------------------------------------------------------------------- *)
(** ** The filters with the digit limit *)
(* --------------------------------------------------------------------- *)

(** The number of digits of a number, against its size. *)
Lemma parse_digits_bounds ud s :
  Forall is_digit s -> forall acc after_digit v,
  (0 <= acc)%Z ->
  parse_digits ud acc after_digit s = Some v ->
  (acc * 10 ^ Z.of_nat (List.length s) <= v
   < (acc + 1) * 10 ^ Z.of_nat (List.length s))%Z.
Proof.
  induction 1 as [|c s Hc _ IH]; intros acc after_digit v Hacc Hv.
  - cbn [parse_digits] in Hv. destruct after_digit; [|discriminate].
    apply Some_eq in Hv. subst v. cbn [List.length Z.of_nat].
    rewrite Z.pow_0_r. lia.
  - rewrite parse_digits_step in Hv by exact Hc.
    assert (Hd : (0 <= Z.of_N (c - 48) <= 9)%Z) by (destruct Hc; lia).
    apply IH in Hv; [|lia].
    cbn [List.length]. rewrite Nat2Z.inj_succ, Z.pow_succ_r by lia.
    pose proof (Z.pow_pos_nonneg 10 (Z.of_nat (List.length s))
                  ltac:(lia) ltac:(lia)) as Hp.
    revert Hv Hp. generalize (10 ^ Z.of_nat (List.length s))%Z.
    generalize (Z.of_N (c - 48)) Hd. intros d Hd' P Hv Hp. nia.
Qed.

Lemma digits_upper n : (Z.of_N n < 10 ^ Z.of_nat (List.length (digits n)))%Z.
Proof.
  pose proof (parse_digits_bounds ascii_only (digits n) (digits_are_digits n)
                0%Z false (Z.of_N n) ltac:(lia) (parse_digits_digits ascii_only n)).
  lia.
Qed.

Lemma to_uint_head p d : Pos.to_uint p <> Decimal.D0 d.
Proof.
  intros H.
  pose proof (DecimalPos.Unsigned.to_of (Pos.to_uint p)) as Hn.
  rewrite DecimalPos.Unsigned.of_to in Hn.
  change (N.to_uint (N.pos p)) with (Pos.to_uint p) in Hn.
  destruct (Decimal.nzhead (Pos.to_uint p)) eqn:Hz;
    unfold Decimal.unorm in Hn; rewrite Hz in Hn;
    try (rewrite <- Hn in Hz; rewrite H in Hn; discriminate Hn).
  - now apply (DecimalPos.Unsigned.to_uint_nonzero p).
  - now apply (DecimalFacts.nzhead_nonzero (Pos.to_uint p) u).
Qed.

Lemma digits_lower p :
  (10 ^ Z.of_nat (List.length (digits (N.pos p)) - 1) <= Z.pos p)%Z.
Proof.
  pose proof (parse_digits_digits ascii_only (N.pos p)) as Hv.
  pose proof (digits_are_digits (N.pos p)) as Hd.
  pose proof (to_uint_head p) as Hh.
  pose proof (DecimalPos.Unsigned.to_uint_nonnil p) as Hn.
  unfold digits in *. change (N.to_uint (N.pos p)) with (Pos.to_uint p) in *.
  change (Z.of_N (N.pos p)) with (Z.pos p) in Hv.
  destruct (Pos.to_uint p) as [|u|u|u|u|u|u|u|u|u|u];
    [contradiction | now elim (Hh u) | ..];
    cbn [str_of_uint] in *; inversion Hd as [|c s Hc Hs]; subst;
    rewrite parse_digits_step in Hv by exact Hc;
    (apply (parse_digits_bounds ascii_only _ Hs) in Hv; [|cbn; lia]);
    cbn [List.length]; rewrite Nat.sub_succ, Nat.sub_0_r;
    pose proof (Z.pow_pos_nonneg 10 (Z.of_nat (List.length (str_of_uint u)))
                  ltac:(lia) ltac:(lia)) as Hp;
    revert Hv Hp; generalize (10 ^ Z.of_nat (List.length (str_of_uint u)))%Z;
    intros P Hv Hp; lia.
Qed.

(** The digits of a number are at most [m] when the number is below [10^m]. *)
Lemma digit_count n m :
  (1 <= m)%nat ->
  (List.length (digits n) <= m)%nat <-> (Z.of_N n < 10 ^ Z.of_nat m)%Z.
Proof.
  intros Hm. split; intros H.
  - pose proof (digits_upper n) as Hu.
    pose proof (Z.pow_le_mono_r 10 (Z.of_nat (List.length (digits n))) (Z.of_nat m)
                  ltac:(lia) ltac:(lia)) as Hle.
    lia.
  - destruct n as [|p]; [exact Hm|].
    destruct (Nat.le_gt_cases (List.length (digits (N.pos p))) m) as [Hl|Hl];
      [exact Hl|].
    pose proof (digits_lower p) as Hlow.
    pose proof (Z.pow_le_mono_r 10 (Z.of_nat m)
                  (Z.of_nat (List.length (digits (N.pos p)) - 1))
                  ltac:(lia) ltac:(lia)) as Hle.
    change (Z.of_N (N.pos p)) with (Z.pos p) in H. lia.
Qed.

(** An int is within the limit when its absolute value is below [10^4300]. *)
Lemma fits_iff z : Full.fits z = true <-> (Z.abs z < 10 ^ 4300)%Z.
Proof.
  unfold Full.fits. rewrite Nat.leb_le.
  rewrite (digit_count (Z.abs_N z) Full.int_max_str_digits)
    by (unfold Full.int_max_str_digits; lia).
  rewrite N2Z.inj_abs_N.
  change (Z.of_nat Full.int_max_str_digits) with 4300%Z. reflexivity.
Qed.

Lemma beyond_limit z : (10 ^ 4300 <= Z.abs z)%Z -> Full.fits z = false.
Proof.
  intros H. destruct (Full.fits z) eqn:Hf; [|reflexivity].
  apply fits_iff in Hf. revert H Hf. generalize (10 ^ 4300)%Z. intros; lia.
Qed.

Section LimitFacts.

Variable unicode_decimal : N -> option N.
Variable py_repr : value -> str.

Lemma fits_seconds s : (0 <= s <= 59)%Z -> Full.fits s = true.
Proof.
  intros Hs. rewrite <- (Z2Nat.id s) by lia.
  assert (Hn : (Z.to_nat s < 60)%nat) by lia.
  generalize dependent (Z.to_nat s). clear. intros n Hn.
  do 60 (destruct n as [|n]; [reflexivity|]). lia.
Qed.

Lemma full_py_int_not_None v k :
  Full.py_int unicode_decimal v = Ok k -> is_None v = false.
Proof. destruct v; simpl; intros H; try reflexivity; discriminate. Qed.

Lemma full_py_int_of_int n : Full.py_int unicode_decimal (PyInt n) = Ok n.
Proof. reflexivity. Qed.

(** What [format_duration] gives once [int(seconds)] is known. *)
Lemma full_format_duration_int v k :
  Full.py_int unicode_decimal v = Ok k ->
  Full.format_duration unicode_decimal v
  = if Full.fits (k / 60)
    then Ok (str_of_int (k / 60) ++ lit ":" ++ format_02d (k mod 60))
    else Ok (lit "0:00").
Proof.
  intros Hv. unfold Full.format_duration.
  rewrite (full_py_int_not_None v k Hv), Hv. cbn [rbind]. cbv zeta.
  unfold Full.int_str, Full.int_02d.
  rewrite (fits_seconds (k mod 60))
    by (pose proof (Z.mod_pos_bound k 60); lia).
  now destruct (Full.fits (k / 60)).
Qed.

(** What [format_number] gives for an int. *)
Lemma full_format_number_int n :
  Full.format_number unicode_decimal py_repr (PyInt n)
  = if Full.fits n then Ok (format_comma n) else Raise ValueError.
Proof.
  unfold Full.format_number, Full.int_comma, Full.py_str.
  cbn [is_None Full.py_int py_int rbind Full.ints_fit].
  now destruct (Full.fits n).
Qed.

(** What the two filters do where the specification is right about them. *)
Lemma full_filters_contract :
  Full.format_number unicode_decimal py_repr PyNone = Ok (lit "0")
  /\ Full.format_duration unicode_decimal PyNone = Ok (lit "0:00")
  /\ Full.format_duration unicode_decimal (PyInt 125) = Ok (lit "2:05")
  /\ (forall v k, Full.py_int unicode_decimal v = Ok k -> Full.fits k = true ->
        Full.format_number unicode_decimal py_repr v = Ok (format_comma k))
  /\ (forall v e, v <> PyNone -> Full.py_int unicode_decimal v = Raise e ->
        isinstance e CValueError || isinstance e CTypeError = true ->
        Full.format_duration unicode_decimal v = Ok (lit "0:00")
        /\ (Full.ints_fit v = true ->
            Full.format_number unicode_decimal py_repr v = Ok (py_str py_repr v))).
Proof.
  split; [reflexivity|]. split; [reflexivity|]. split; [reflexivity|]. split.
  - intros v k Hv Hf. unfold Full.format_number, Full.int_comma.
    rewrite (full_py_int_not_None v k Hv), Hv. cbn [rbind]. now rewrite Hf.
  - intros v e Hn He Hc.
    assert (Hv : is_None v = false) by (destruct v; [contradiction | reflexivity ..]).
    unfold Full.format_number, Full.format_duration, Full.py_str, try_except.
    rewrite Hv, He. cbn [rbind existsb]. rewrite orb_false_r, Hc.
    split; [reflexivity|]. now intros ->.
Qed.

Lemma digit_is_decimal c : is_digit c -> to_decimal unicode_decimal c = Some (c - 48).
Proof.
  intros [Hlo Hhi]. unfold to_decimal.
  destruct (N.ltb_spec c 128); [|lia].
  destruct (N.leb_spec 48 c); [|lia].
  destruct (N.leb_spec c 57); [|lia].
  reflexivity.
Qed.

Lemma digit_chars_digits r :
  Forall is_digit r -> Full.digit_chars unicode_decimal r = List.length r.
Proof.
  unfold Full.digit_chars. induction 1 as [|c r Hc _ IH]; [reflexivity|].
  cbn [filter]. rewrite (digit_is_decimal c Hc). cbn [List.length]. now rewrite IH.
Qed.

Lemma digit_chars_str_of_int z :
  Full.digit_chars unicode_decimal (str_of_int z)
  = List.length (digits (Z.abs_N z)).
Proof.
  pose proof (digit_chars_digits _ (digits_are_digits (Z.abs_N z))) as H.
  unfold str_of_int, sign_of. destruct (z <? 0)%Z; [|exact H].
  unfold Full.digit_chars in *. cbn [minus_sign app filter].
  change (to_decimal unicode_decimal 45) with (@None N). exact H.
Qed.

(** [int] of the decimal text of an integer: the integer, unless the text is
    beyond the limit. *)
Lemma full_int_of_decimal_text z :
  Full.py_int unicode_decimal (PyStr (str_of_int z))
  = if Full.fits z then Ok z else Raise ValueError.
Proof.
  cbn [Full.py_int]. unfold Full.int_of_text, Full.fits.
  rewrite digit_chars_str_of_int.
  destruct (_ <=? _)%nat; [apply int_of_str_of_int | reflexivity].
Qed.



End LimitFacts.

Section LimitTheorems.

Variable unicode_decimal : N -> option N.
Variable py_repr : value -> str.

(** C10 (as amended).  When [int(n)] is negative and the minutes part
    [int(n) // 60] has at most 4300 digits, [format_duration] does not clamp:
    it gives [int(n) // 60], a negative number, a colon, and [int(n) % 60],
    which lies in 0..59 and is written with two digits; so
    [format_duration(-1)] is ["-1:59"].  Beyond that limit the text of the
    minutes cannot be made, and the result is ["0:00"]. *)
Theorem format_duration_negative_within_limit (v : value) (k : Z) :
  Full.py_int unicode_decimal v = Ok k -> (k < 0)%Z ->
  (Full.fits (k / 60) = true ->
   Full.format_duration unicode_decimal v
   = Ok (str_of_int (k / 60) ++ lit ":" ++ format_02d (k mod 60)))
  /\ (Full.fits (k / 60) = false ->
      Full.format_duration unicode_decimal v = Ok (lit "0:00"))
  /\ (k / 60 < 0)%Z
  /\ (0 <= k mod 60 <= 59)%Z
  /\ format_02d (k mod 60)
     = [48 + Z.to_N (k mod 60) / 10; 48 + Z.to_N (k mod 60) mod 10]
  /\ Full.format_duration unicode_decimal (PyInt (-1)) = Ok (lit "-1:59").
Proof.
  intros Hv Hk.
  assert (Hm : (0 <= k mod 60 <= 59)%Z) by (pose proof (Z.mod_pos_bound k 60); lia).
  rewrite (full_format_duration_int unicode_decimal v k Hv).
  split; [|split; [|split; [|split; [|split]]]].
  - now intros ->.
  - now intros ->.
  - apply Z.div_lt_upper_bound; lia.
  - exact Hm.
  - now apply format_02d_two_digits.
  - reflexivity.
Qed.

(** X10.  Within the digit limit, [int] reads back what [str] wrote, and
    both filters treat the decimal text of an integer like the integer.
    Beyond the limit they part: [format_number] returns the text as it is
    where the integer itself raises [ValueError], and [format_duration]
    shows the text as ["0:00"]. *)
Theorem filters_read_decimal_text_within_limit (z : Z) :
  (Full.fits z = true ->
   Full.py_int unicode_decimal (PyStr (str_of_int z)) = Ok z
   /\ Full.format_number unicode_decimal py_repr (PyStr (str_of_int z))
      = Full.format_number unicode_decimal py_repr (PyInt z)
   /\ Full.format_duration unicode_decimal (PyStr (str_of_int z))
      = Full.format_duration unicode_decimal (PyInt z))
  /\ (Full.fits z = false ->
      Full.format_number unicode_decimal py_repr (PyStr (str_of_int z))
      = Ok (str_of_int z)
      /\ Full.format_number unicode_decimal py_repr (PyInt z) = Raise ValueError
      /\ Full.format_duration unicode_decimal (PyStr (str_of_int z))
         = Ok (lit "0:00")).
Proof.
  pose proof (full_int_of_decimal_text unicode_decimal z) as Hint.
  split; intros Hf; rewrite Hf in Hint.
  - split; [exact Hint|].
    unfold Full.format_number, Full.format_duration.
    cbn [is_None]. rewrite Hint, !full_py_int_of_int. cbn [rbind].
    unfold Full.int_comma. rewrite Hf. split; reflexivity.
  - unfold Full.format_number, Full.format_duration. cbn [is_None].
    rewrite Hint, full_py_int_of_int. cbn [rbind]. unfold Full.int_comma.
    rewrite Hf. cbn [try_except existsb isinstance orb].
    unfold Full.py_str. cbn [Full.ints_fit py_str]. rewrite Hf. auto.
Qed.

(** X11.  On the integers whose minutes have at most 4300 digits
    [format_duration] is injective: two of them that are shown alike are
    equal.  Every integer beyond is shown as ["0:00"]. *)
Theorem format_duration_injective_within_limit (a b : Z) :
  (Full.fits (a / 60) = true -> Full.fits (b / 60) = true ->
   Full.format_duration unicode_decimal (PyInt a)
   = Full.format_duration unicode_decimal (PyInt b) ->
   a = b)
  /\ (Full.fits (a / 60) = false ->
      Full.format_duration unicode_decimal (PyInt a) = Ok (lit "0:00")).
Proof.
  rewrite !(full_format_duration_int unicode_decimal _ _
              (full_py_int_of_int unicode_decimal _)).
  split; [|now intros ->].
  intros Hfa Hfb. rewrite Hfa, Hfb. intros H'. apply Ok_inj in H'.
  assert (Ha : (0 <= a mod 60 <= 59)%Z) by (pose proof (Z.mod_pos_bound a 60); lia).
  assert (Hb : (0 <= b mod 60 <= 59)%Z) by (pose proof (Z.mod_pos_bound b 60); lia).
  rewrite (format_02d_two_digits _ Ha), (format_02d_two_digits _ Hb) in H'.
  apply app_same_tail_length in H' as [Hm Hs]; [|reflexivity].
  apply (str_of_int_inj unicode_decimal) in Hm.
  change (lit ":") with [58] in Hs. cbn [app] in Hs.
  assert (H1 : 48 + Z.to_N (a mod 60) / 10 = 48 + Z.to_N (b mod 60) / 10)
    by congruence.
  assert (H2 : 48 + Z.to_N (a mod 60) mod 10 = 48 + Z.to_N (b mod 60) mod 10)
    by congruence.
  assert (Z.to_N (a mod 60) = Z.to_N (b mod 60)).
  { rewrite (N.div_mod (Z.to_N (a mod 60)) 10), (N.div_mod (Z.to_N (b mod 60)) 10)
      by lia.
    apply N.add_cancel_l in H1, H2. now rewrite H1, H2. }
  assert (Hmod : (a mod 60 = b mod 60)%Z) by lia.
  pose proof (Z.div_mod a 60 ltac:(lia)) as Ea.
  pose proof (Z.div_mod b 60 ltac:(lia)) as Eb.
  rewrite Ea, Eb, Hm, Hmod. reflexivity.
Qed.


End LimitTheorems.

(* --------------------------------------------------------------------- *)
(** ** The gateway and the views when every line is written *)
(* --------------------------------------------------------------------- *)

Section QuietViews.

Variable h : Full.host.
Hypothesis Hquiet : Full.quiet h.

(** A view that calls the gateway once and renders. *)
Lemma full_render_after_call endpoint (k : value -> page) t :
  bind (Full.make_api_request h endpoint)
       (fun data => lift (Full.render h (k data))) t
  = (Full.render h (k (classify (reply (Full.http h) endpoint t))),
     t ++ call_events endpoint).
Proof. unfold bind. now rewrite full_gateway_quiet. Qed.

(** X18.  When the standard output takes every line, the prints change
    nothing: the gateway with its prints returns what the gateway without
    them returns and leaves the same trace; so it does not raise. *)
Theorem gateway_prints_change_nothing (endpoint : str) (t : trace) :
  Full.make_api_request h endpoint t
  = make_api_request (Full.http h) endpoint t
  /\ exists v, fst (Full.make_api_request h endpoint t) = Ok v
               /\ has_error_key v = false.
Proof.
  rewrite full_gateway_quiet by exact Hquiet. rewrite make_api_request_run.
  split; [reflexivity|]. eexists. split; [reflexivity | apply classify_no_error].
Qed.

(** X1.  When the standard output takes every line, the home page asks the
    gateway for [chart/0] and then for [editorial], whatever the first call
    returned, and ends by rendering [index.html] with both results, [None] or
    not: it raises only what the rendering raises. *)
Theorem index_with_prints (t : trace) :
  let t1 := t ++ call_events (lit "chart/0") in
  let t2 := t1 ++ call_events (lit "editorial") in
  exists chart_data editorial_data,
    Full.make_api_request h (lit "chart/0") t = (Ok chart_data, t1)
    /\ Full.make_api_request h (lit "editorial") t1 = (Ok editorial_data, t2)
    /\ has_error_key chart_data = false
    /\ has_error_key editorial_data = false
    /\ Full.index h t
       = (Full.render h (render_template "index.html"
                           [("chart_data"%string, chart_data);
                            ("editorial_data"%string, editorial_data)]),
          t2).
Proof.
  intros t1 t2.
  exists (classify (reply (Full.http h) (lit "chart/0") t)).
  exists (classify (reply (Full.http h) (lit "editorial") t1)).
  split; [now apply full_gateway_quiet|].
  split; [now apply full_gateway_quiet|].
  split; [apply classify_no_error|].
  split; [apply classify_no_error|].
  unfold Full.index, bind. rewrite full_gateway_quiet by exact Hquiet.
  fold t1. now rewrite full_gateway_quiet.
Qed.

(** X2.  When the standard output takes every line, the user, album,
    playlist and episode pages make one gateway call, for [{kind}/{id}], and
    end by rendering [detail.html] with the result of that call under [data]
    and the kind under [type] (the user page puts the identifier into its
    title): they raise only what the rendering raises. *)
Theorem plain_detail_views_with_prints (id : str) (t : trace) :
  let got kind := fst (Full.make_api_request h (lit kind ++ id) t) in
  let after kind := t ++ call_events (lit kind ++ id) in
  (exists data, got "user/"%string = Ok data
     /\ Full.user_detail h id t
        = (Full.render h (render_template "detail.html"
                            [("data"%string, data);
                             ("title"%string, PyStr (lit "User " ++ id));
                             ("type"%string, PyStr (lit "user"))]),
           after "user/"%string))
  /\ (exists data, got "album/"%string = Ok data
       /\ Full.album_detail h id t
          = (Full.render h (render_template "detail.html"
                              [("data"%string, data);
                               ("title"%string, PyStr (lit "Album Details"));
                               ("type"%string, PyStr (lit "album"))]),
             after "album/"%string))
  /\ (exists data, got "playlist/"%string = Ok data
       /\ Full.playlist_detail h id t
          = (Full.render h (render_template "detail.html"
                              [("data"%string, data);
                               ("title"%string, PyStr (lit "Playlist Details"));
                               ("type"%string, PyStr (lit "playlist"))]),
             after "playlist/"%string))
  /\ (exists data, got "episode/"%string = Ok data
       /\ Full.episode_detail h id t
          = (Full.render h (render_template "detail.html"
                              [("data"%string, data);
                               ("title"%string, PyStr (lit "Episode Details"));
                               ("type"%string, PyStr (lit "episode"))]),
             after "episode/"%string)).
Proof.
  intros got after. unfold got, after.
  repeat split;
    (eexists; split;
     [rewrite full_gateway_quiet by exact Hquiet; reflexivity
     | first [unfold Full.user_detail | unfold Full.album_detail
             | unfold Full.playlist_detail | unfold Full.episode_detail];
       apply (full_render_after_call _ (fun data => render_template _ _))]).
Qed.

(** The debug block of the track page on a payload of the gateway. *)
Lemma full_track_debug_quiet data t :
  has_error_key data = false ->
  Full.track_debug h data t
  = (if truthy data then
       match data with
       | PyDict d =>
           match Full.py_str (Full.repr h)
                   (dict_get (lit "title") (PyStr (lit "No title")) d) with
           | Ok _ => Ok tt
           | Raise e => Raise e
           end
       | _ => Raise AttributeError
       end
     else Ok tt,
     t).
Proof.
  intros He. unfold Full.track_debug.
  destruct (truthy data); [|now apply print_quiet].
  rewrite bind_lift.
  destruct data; cbn [method_get]; try reflexivity.
  rewrite bind_lift.
  destruct (Full.py_str _ _); [|reflexivity].
  rewrite !bind_print_quiet by exact Hquiet.
  cbn [has_error_key] in He. now rewrite He.
Qed.

(** X3.  When the standard output takes every line, the track page makes its
    one gateway call and then: raises [AttributeError], with nothing to catch
    it, when the payload is true under [if] without being a mapping; for a
    non-empty mapping raises what [str] of its title raises, if anything;
    otherwise, and on a payload that is false under [if], ends by rendering
    [detail.html] with the payload. *)
Theorem track_detail_with_prints (track_id : str) (t : trace) :
  let endpoint := lit "track/" ++ track_id in
  exists track_data,
    Full.make_api_request h endpoint t = (Ok track_data, t ++ call_events endpoint)
    /\ Full.track_detail h track_id t
       = (let page :=
            Full.render h (render_template "detail.html"
                             [("data"%string, track_data);
                              ("title"%string, PyStr (lit "Track Details"));
                              ("type"%string, PyStr (lit "track"))]) in
          if truthy track_data then
            match track_data with
            | PyDict d =>
                match Full.py_str (Full.repr h)
                        (dict_get (lit "title") (PyStr (lit "No title")) d) with
                | Ok _ => page
                | Raise e => Raise e
                end
            | _ => Raise AttributeError
            end
          else page,
          t ++ call_events endpoint).
Proof.
  intros endpoint. exists (classify (reply (Full.http h) endpoint t)).
  split; [now apply full_gateway_quiet|].
  unfold Full.track_detail. fold endpoint.
  rewrite bind_print_quiet by exact Hquiet.
  unfold bind. rewrite full_gateway_quiet by exact Hquiet.
  rewrite full_track_debug_quiet by apply classify_no_error.
  cbv zeta. set (data := classify (reply (Full.http h) endpoint t)).
  destruct (truthy data); [|reflexivity].
  destruct data; try reflexivity.
  now destruct (Full.py_str _ _).
Qed.

End QuietViews.

Section QuietSearch.

Variable h : Full.host.
Hypothesis Hquiet : Full.quiet h.

Lemma bind_render {A} (m : M A) (k : A -> page) t :
  (exists e t', bind m (fun a => lift (Full.render h (k a))) t = (Raise e, t'))
  \/ (exists p t', bind m (fun a => lift (Full.render h (k a))) t
                   = (Full.render h p, t')).
Proof.
  unfold bind. destruct (m t) as [[a|e] t'].
  - right. eexists. eexists. reflexivity.
  - left. eexists. eexists. reflexivity.
Qed.

(** The [try] suite of [search] ends by rendering, unless it raised. *)
Lemma full_search_body_cases args t :
  (exists e t', Full.search_body h args t = (Raise e, t'))
  \/ (exists p t', Full.search_body h args t = (Full.render h p, t')).
Proof.
  unfold Full.search_body. cbv zeta. rewrite bind_print_quiet by exact Hquiet.
  apply (bind_render _ (fun results => render_template "search.html" _)).
Qed.

(** Whatever happens in [search], it ends by rendering a page. *)
Lemma full_search_renders args t :
  exists p, fst (Full.search h args t) = Full.render h p.
Proof.
  unfold Full.search, try_catch.
  destruct (full_search_body_cases args t) as [(e & t' & Hb) | (p & t' & Hb)];
    rewrite Hb.
  - cbn [find isinstance fst snd]. rewrite !bind_print_quiet by exact Hquiet.
    eexists. reflexivity.
  - destruct (Full.render h p) as [body|e] eqn:Hr.
    + exists p. now rewrite Hr.
    + cbn [find isinstance fst snd]. rewrite !bind_print_quiet by exact Hquiet.
      eexists. reflexivity.
Qed.

(** X7.  When the standard output takes every line, the home, search, user,
    album, artist, playlist and episode views raise nothing of their own:
    each ends by rendering a page and raises only what that rendering
    raises.  Each of the other five (track, the editorial list and selection,
    genres, radio) raises [AttributeError] when the upstream answers 200 with
    the JSON array [[1]]. *)
Theorem guarded_views_with_prints (r : request) (t : trace) :
  (guarded r = true ->
   exists p, fst (Full.view h r t) = Full.render h p)
  /\ (guarded r = false ->
      fst (Full.view (sample_host (always 200 (Ok (PyList [PyInt 1]))) no_refusal) r t)
      = Raise AttributeError).
Proof.
  split; intros Hg.
  - destruct r as [|args|id|id| |id|id|id|id| | |id]; try discriminate Hg;
      cbn [Full.view].
    + unfold Full.index, bind. rewrite !full_gateway_quiet by exact Hquiet.
      eexists. reflexivity.
    + apply full_search_renders.
    + unfold Full.user_detail.
      rewrite (full_render_after_call h Hquiet _ (fun data => render_template _ _)).
      eexists. reflexivity.
    + unfold Full.album_detail.
      rewrite (full_render_after_call h Hquiet _ (fun data => render_template _ _)).
      eexists. reflexivity.
    + unfold Full.artist_detail, bind. rewrite !full_gateway_quiet by exact Hquiet.
      eexists. reflexivity.
    + unfold Full.playlist_detail.
      rewrite (full_render_after_call h Hquiet _ (fun data => render_template _ _)).
      eexists. reflexivity.
    + unfold Full.episode_detail.
      rewrite (full_render_after_call h Hquiet _ (fun data => render_template _ _)).
      eexists. reflexivity.
  - destruct r; try discriminate Hg; reflexivity.
Qed.

End QuietSearch.

(* --------------------------------------------------------------------- *)
(** ** When a line cannot be written *)
(* --------------------------------------------------------------------- *)

(** C2 (the defect).  On a standard output that takes ASCII only, the first
    print of the gateway raises [UnicodeEncodeError]; the [except Exception]
    clause catches it and prints in its turn, which raises again, and this
    time nothing catches it: the call raises, before any GET is made. *)
Theorem gateway_raises_on_ascii_stdout (h : Full.host) (endpoint : str) (t : trace) :
  (forall line, Full.stdout h line = ascii_stdout line) ->
  Full.make_api_request h endpoint t
  = (Raise UnicodeEncodeError, t ++ [GatewayCall endpoint]).
Proof.
  intros Hascii. unfold Full.make_api_request. rewrite bind_emit.
  unfold Full.try_with_local. cbv zeta.
  rewrite bind_print, Hascii.
  change (ascii_stdout ([0x1F310] ++ lit " Making request to: "
                        ++ DEEZER_BASE_URL ++ lit "/" ++ lstrip [slash] (strip endpoint)))
    with (Some UnicodeEncodeError).
  unfold Full.handle, Full.gateway_clauses. cbn [find isinstance fst snd].
  rewrite bind_print, Hascii. reflexivity.
Qed.

(* --------------------------------------------------------------------- *)
(** ** The route boundary *)
(* --------------------------------------------------------------------- *)

(** C9 (as amended).  Provided the error page can be rendered, every request
    is answered: with what the view returns and status 200; with the error
    page and status 500 when an exception leaves the view; with the error
    page and status 404 when no route matches.  An exception raised in the
    [try] suite of [search] does not leave the view: when the three lines of
    its [except] clause are written and the search page renders, the answer
    is that page (a null result, the text of the exception under [error])
    with status 200. *)
Theorem route_boundary (h : Full.host) (t : trace) :
  (forall error,
     exists body,
       Full.render h (render_template "error.html" [("error"%string, error)])
       = Ok body) ->
  (forall r,
     exists body status,
       fst (Full.dispatch h r t) = Ok (body, status)
       /\ match r with
          | None =>
              status = 404%Z
              /\ Full.render h (render_template "error.html"
                                  [("error"%string, Full.not_found h)])
                 = Ok body
          | Some r =>
              match fst (Full.view h r t) with
              | Ok text => status = 200%Z /\ body = text
              | Raise e =>
                  status = 500%Z
                  /\ Full.render h (render_template "error.html"
                                      [("error"%string, Full.server_error h e)])
                     = Ok body
              end
          end)
  /\ (forall args e t' body,
        Full.search_body h args t = (Raise e, t') ->
        Full.stdout h ([0x1F525] ++ lit " ERROR in search function: "
                       ++ Full.str_exn h e) = None ->
        Full.stdout h ([0x1F525] ++ lit " Error type: " ++ Full.name_exn h e) = None ->
        Full.stdout h ([0x1F525] ++ lit " Traceback: " ++ Full.format_exc h e) = None ->
        Full.render h (render_template "search.html"
                         [("results"%string, PyNone);
                          ("query"%string, PyStr (args_get (lit "q") (lit "") args));
                          ("search_type"%string,
                           PyStr (args_get (lit "type") (lit "track") args));
                          ("error"%string, PyStr (Full.str_exn h e))])
        = Ok body ->
        Full.dispatch h (Some (GetSearch args)) t = (Ok (body, 200%Z), t')).
Proof.
  intros Herr. split.
  - intros [r|]; unfold Full.dispatch.
    + destruct (Full.view h r t) as [[text|e] t'].
      * exists text, 200%Z. cbn [fst]. auto.
      * destruct (Herr (Full.server_error h e)) as (body & Hb).
        exists body, 500%Z. unfold Full.internal_error.
        rewrite bind_lift, Hb. cbn [fst]. auto.
    + destruct (Herr (Full.not_found h)) as (body & Hb).
      exists body, 404%Z. unfold Full.not_found_error.
      rewrite bind_lift, Hb. auto.
  - intros args e t' body Hbody H1 H2 H3 Hrender.
    unfold Full.dispatch. cbn [Full.view]. unfold Full.search, try_catch.
    rewrite Hbody. cbn [find isinstance fst snd].
    rewrite bind_print, H1, bind_print, H2, bind_print, H3.
    unfold lift. now rewrite Hrender.
Qed.

(* --------------------------------------------------------------------- *)
(** ** A safe query in the search endpoint *)
(* --------------------------------------------------------------------- *)


(* --------------------------------------------------------------------- *)
(** ** Where the code with its prints and the specification part *)
(* --------------------------------------------------------------------- *)

(** The upstream answers 200 with [{"data": 5}]: in [search], [len(5)] raises
    [TypeError] inside the handler, and the request is answered with the
    search page and status 200, neither 404 nor 500. *)
Lemma search_failure_is_answered_200 :
  fst (Full.search_body (sample_host odd_payload no_refusal)
         [(lit "q", lit "abc")] [])
  = Raise TypeError
  /\ fst (Full.dispatch (sample_host odd_payload no_refusal)
            (Some (GetSearch [(lit "q", lit "abc")])) [])
     = Ok (lit "search.html", 200%Z)
  /\ ~ (exists body status,
          fst (Full.dispatch (sample_host odd_payload no_refusal)
                 (Some (GetSearch [(lit "q", lit "abc")])) [])
          = Ok (body, status)
          /\ (status = 404 \/ status = 500)%Z).
Proof.
  split; [reflexivity|]. split; [reflexivity|].
  intros (body & status & H & Hs). vm_compute in H.
  assert (status = 200%Z) by congruence. lia.
Qed.

(** [-0.5] is a negative number, yet [format_duration(-0.5)] is ["0:00"]:
    [int(-0.5)] is 0, and the minutes part is not negative.  And the negative
    integer [-60 * 10^4300], whose minutes have 4301 digits, is shown as
    ["0:00"] as well. *)
Lemma format_duration_clamps :
  is_negative_number (PyFloat (FFinite (-1) (-1))) = true
  /\ Full.py_int ascii_only (PyFloat (FFinite (-1) (-1))) = Ok 0%Z
  /\ Full.format_duration ascii_only (PyFloat (FFinite (-1) (-1))) = Ok (lit "0:00")
  /\ ~ (0 / 60 < 0)%Z
  /\ is_negative_number (PyInt (- (60 * 10 ^ 4300))) = true
  /\ Full.format_duration ascii_only (PyInt (- (60 * 10 ^ 4300))) = Ok (lit "0:00").
Proof.
  split; [reflexivity|]. split; [reflexivity|]. split; [reflexivity|].
  split; [intros H; discriminate H|].
  pose proof (Z.pow_pos_nonneg 10 4300 ltac:(lia) ltac:(lia)) as Hp.
  assert (Hbig : Full.fits (- 10 ^ 4300) = false).
  { apply beyond_limit. revert Hp. generalize (10 ^ 4300)%Z. intros; lia. }
  revert Hp Hbig. generalize (10 ^ 4300)%Z. intros P Hp Hbig.
  split.
  - cbn [is_negative_number]. apply Z.ltb_lt. lia.
  - rewrite (full_format_duration_int ascii_only _ _
               (full_py_int_of_int ascii_only (- (60 * P)))).
    replace (- (60 * P) / 60)%Z with (- P)%Z.
    + now rewrite Hbig.
    + rewrite <- Z.mul_opp_r, Z.mul_comm, Z.div_mul by lia. reflexivity.
Qed.

(** On a strict UTF-8 standard output a track whose title holds a lone
    surrogate makes the track page raise: the line with the title cannot be
    written. *)
Example track_title_lone_surrogate :
  Full.track_detail
    (sample_host (always 200 (Ok (PyDict [(lit "title", PyStr [0xD800])])))
       utf8_stdout)
    (lit "3135556") []
  = (Raise UnicodeEncodeError, call_events (lit "track/3135556")).
Proof. reflexivity. Qed.

(** On the same output the gateway itself prints and returns. *)
Example gateway_on_utf8_stdout :
  Full.make_api_request (sample_host odd_payload utf8_stdout) (lit "genre") []
  = (Ok (PyDict [(lit "data", PyInt 5)]), call_events (lit "genre")).
Proof. reflexivity. Qed.

(** An integer of 4301 digits: [format_number] raises on it and on a list
    that holds it; its text is returned as it is.  With 4300 digits the
    number is grouped. *)
Example format_number_beyond_limit :
  Full.format_number ascii_only plain_repr (PyInt (10 ^ 4300)) = Raise ValueError
  /\ Full.format_number ascii_only plain_repr (PyList [PyInt (10 ^ 4300)])
     = Raise ValueError
  /\ Full.format_number ascii_only plain_repr (PyStr (str_of_int (10 ^ 4300)))
     = Ok (str_of_int (10 ^ 4300))
  /\ Full.format_number ascii_only plain_repr (PyInt (10 ^ 4300 - 1))
     = Ok (format_comma (10 ^ 4300 - 1)).
Proof.
  pose proof (Z.pow_pos_nonneg 10 4300 ltac:(lia) ltac:(lia)) as Hp.
  assert (Hbig : Full.fits (10 ^ 4300) = false).
  { apply beyond_limit. revert Hp. generalize (10 ^ 4300)%Z. intros; lia. }
  assert (Hbelow : Full.fits (10 ^ 4300 - 1) = true).
  { apply fits_iff. revert Hp. generalize (10 ^ 4300)%Z. intros; lia. }
  clear Hp. revert Hbig Hbelow. generalize (10 ^ 4300)%Z. intros P Hbig Hbelow.
  rewrite !full_format_number_int, Hbig, Hbelow.
  split; [reflexivity|]. split; [|split; [|reflexivity]].
  - unfold Full.format_number, Full.py_str.
    cbn [is_None Full.py_int py_int rbind try_except existsb isinstance orb
         Full.ints_fit forallb andb].
    now rewrite Hbig.
  - unfold Full.format_number.
    rewrite (full_int_of_decimal_text ascii_only), Hbig. reflexivity.
Qed.

(* --------------------------------------------------------------------- *)
(** ** The theorems on the code with its prints, at concrete inputs *)
(* --------------------------------------------------------------------- *)

Lemma no_refusal_quiet upstream : Full.quiet (sample_host upstream no_refusal).
Proof. intros line. reflexivity. Defined.

Lemma gateway_raises_on_ascii_stdout_witness :
  Full.make_api_request (sample_host unreachable ascii_stdout) (lit "chart/0") []
  = (Raise UnicodeEncodeError, [GatewayCall (lit "chart/0")]).
Proof.
  apply (gateway_raises_on_ascii_stdout
           (sample_host unreachable ascii_stdout) (lit "chart/0") []).
  intros line. reflexivity.
Defined.

Lemma route_boundary_witness :
  Full.dispatch (sample_host odd_payload no_refusal)
    (Some (GetSearch [(lit "q", lit "abc")])) []
  = (Ok (lit "search.html", 200%Z), call_events (lit "search/track?q=abc&limit=10")).
Proof.
  refine (proj2 (route_boundary (sample_host odd_payload no_refusal) [] _)
            [(lit "q", lit "abc")] TypeError _ _ _ _ _ _ _).
  - intros error. eexists. reflexivity.
  - reflexivity.
  - reflexivity.
  - reflexivity.
  - reflexivity.
  - reflexivity.
Defined.

Lemma format_duration_negative_within_limit_witness :
  Full.format_duration ascii_only (PyInt (-61)) = Ok (lit "-2:59").
Proof.
  refine (proj1 (format_duration_negative_within_limit ascii_only (PyInt (-61)) (-61)
                   eq_refl _) _).
  - lia.
  - reflexivity.
Defined.

Lemma filters_read_decimal_text_within_limit_witness :
  Full.format_number ascii_only plain_repr (PyStr (lit "-1234567"))
  = Full.format_number ascii_only plain_repr (PyInt (-1234567)).
Proof.
  refine (proj1 (proj2 (proj1 (filters_read_decimal_text_within_limit
                                 ascii_only plain_repr (-1234567)) _))).
  reflexivity.
Defined.

Lemma format_duration_injective_within_limit_witness :
  Full.format_duration ascii_only (PyInt (2 * 100))
  = Full.format_duration ascii_only (PyInt 200)
  /\ (2 * 100 = 200)%Z.
Proof.
  split; [reflexivity|].
  apply (proj1 (format_duration_injective_within_limit ascii_only (2 * 100) 200));
    reflexivity.
Defined.


Lemma gateway_prints_change_nothing_witness :
  Full.make_api_request (sample_host odd_payload no_refusal) (lit "genre") []
  = make_api_request odd_payload (lit "genre") [].
Proof.
  apply (proj1 (gateway_prints_change_nothing (sample_host odd_payload no_refusal)
                  (no_refusal_quiet odd_payload) (lit "genre") [])).
Defined.

Lemma index_with_prints_witness :
  exists chart_data editorial_data,
    Full.index (sample_host unreachable no_refusal) []
    = (Full.render (sample_host unreachable no_refusal)
         (render_template "index.html"
            [("chart_data"%string, chart_data);
             ("editorial_data"%string, editorial_data)]),
       call_events (lit "chart/0") ++ call_events (lit "editorial")).
Proof.
  destruct (index_with_prints (sample_host unreachable no_refusal)
              (no_refusal_quiet unreachable) [])
    as (chart_data & editorial_data & _ & _ & _ & _ & H).
  exists chart_data, editorial_data. exact H.
Defined.

Lemma plain_detail_views_with_prints_witness :
  exists data,
    Full.album_detail (sample_host unreachable no_refusal) (lit "302127") []
    = (Full.render (sample_host unreachable no_refusal)
         (render_template "detail.html"
            [("data"%string, data);
             ("title"%string, PyStr (lit "Album Details"));
             ("type"%string, PyStr (lit "album"))]),
       call_events (lit "album/302127")).
Proof.
  destruct (plain_detail_views_with_prints (sample_host unreachable no_refusal)
              (no_refusal_quiet unreachable) (lit "302127") [])
    as (_ & (data & _ & H) & _).
  exists data. exact H.
Defined.

Lemma track_detail_with_prints_witness :
  fst (Full.track_detail
         (sample_host (always 200 (Ok (PyList [PyInt 1]))) no_refusal)
         (lit "3135556") [])
  = Raise AttributeError.
Proof.
  destruct (track_detail_with_prints
              (sample_host (always 200 (Ok (PyList [PyInt 1]))) no_refusal)
              (no_refusal_quiet _) (lit "3135556") [])
    as (track_data & Hcall & H).
  rewrite H. vm_compute in Hcall. injection Hcall as <-. reflexivity.
Defined.

Lemma guarded_views_with_prints_witness :
  (exists p,
     fst (Full.view (sample_host unreachable no_refusal) (GetAlbum (lit "302127")) [])
     = Full.render (sample_host unreachable no_refusal) p)
  /\ fst (Full.view (sample_host (always 200 (Ok (PyList [PyInt 1]))) no_refusal)
            (GetTrack (lit "3135556")) [])
     = Raise AttributeError.
Proof.
  split.
  - apply (proj1 (guarded_views_with_prints (sample_host unreachable no_refusal)
                    (no_refusal_quiet unreachable) (GetAlbum (lit "302127")) [])).
    reflexivity.
  - apply (proj2 (guarded_views_with_prints (sample_host unreachable no_refusal)
                    (no_refusal_quiet unreachable) (GetTrack (lit "3135556")) [])).
    reflexivity.
Defined.

